(** * NEC PC-8401A / PC-8500 driver: memory banking, keyboard and I/O ROM

    A shallow embedding of [src/mame/nec/pc8401a.cpp].  The driver object
    [pc8401a_state] becomes a record, every member function that assigns a
    member becomes a state transformer, and every call into a collaborating
    device (CPU input line, program address space, memory banks, RTC, log)
    is recorded in the part of the record that stands for that device. *)

From Stdlib Require Import ZArith List Bool Ascii String Lia.
Import ListNotations.
Local Open Scope Z_scope.

(** ** Bytes and bits *)

(** [BIT(x, n)] of the emulator core. *)
Definition BIT (x n : Z) : Z := Z.land (Z.shiftr x n) 1.

(** Conversion to [uint8_t]. *)
Definition u8 (x : Z) : Z := Z.land x 0xff.

(** The line feed that ends a logged line. *)
Definition newline : string := String (ascii_of_nat 10) EmptyString.

(** ** Collaborating devices *)

(** The four memory banks named in [pc8401a_mem]. *)
Inductive membank := bank1 | bank3 | bank4 | bank5.

Definition membank_eqb (a b : membank) : bool :=
  match a, b with
  | bank1, bank1 | bank3, bank3 | bank4, bank4 | bank5, bank5 => true
  | _, _ => false
  end.

(** Calls made on the program address space.  The space is the list of the
    calls made so far, the latest first: a later call overrides an earlier
    one on the addresses both cover. *)
Inductive install :=
| install_read_bank (lo hi : Z) (b : membank)
| install_readwrite_bank (lo hi : Z) (b : membank)
| unmap_write (lo hi : Z)
| unmap_readwrite (lo hi : Z).

Definition address_space := list install.

(** What an address resolves to: nothing, or a bank installed from [lo]. *)
Inductive handler :=
| unmapped
| banked (lo : Z) (b : membank).

Definition within (lo hi a : Z) : bool := (lo <=? a) && (a <=? hi).

Fixpoint read_handler (sp : address_space) (a : Z) : handler :=
  match sp with
  | [] => unmapped
  | install_read_bank lo hi b :: rest =>
      if within lo hi a then banked lo b else read_handler rest a
  | install_readwrite_bank lo hi b :: rest =>
      if within lo hi a then banked lo b else read_handler rest a
  | unmap_write _ _ :: rest => read_handler rest a
  | unmap_readwrite lo hi :: rest =>
      if within lo hi a then unmapped else read_handler rest a
  end.

Fixpoint write_handler (sp : address_space) (a : Z) : handler :=
  match sp with
  | [] => unmapped
  | install_read_bank _ _ _ :: rest => write_handler rest a
  | install_readwrite_bank lo hi b :: rest =>
      if within lo hi a then banked lo b else write_handler rest a
  | unmap_write lo hi :: rest =>
      if within lo hi a then unmapped else write_handler rest a
  | unmap_readwrite lo hi :: rest =>
      if within lo hi a then unmapped else write_handler rest a
  end.

(** CPU input lines. *)
Inductive line_state := CLEAR_LINE | ASSERT_LINE.

Definition INPUT_LINE_IRQ0 : Z := 0.

(** Calls made on [m_maincpu]. *)
Inductive cpu_call :=
| set_input_line (line : Z) (state : line_state)
| set_input_line_and_vector (line : Z) (state : line_state) (vector : Z).

(** The keyboard matrix [m_io_y]: what each row port reads at one instant. *)
Definition ioport_array := nat -> Z.

(** What the machine is built from and plugged with: the RAM device, the
    ROM region, the option ROM cartridge and the I/O ROM cartridge. *)
Record machine_config := {
  ram_size : Z;              (* m_ram->size(), the RAM capacity in bytes *)
  ram_init : Z -> Z;         (* contents of the RAM device at power on *)
  rom : Z -> Z;              (* region Z80_TAG *)
  cart : option (Z -> Z);    (* region of "cartslot", when a cartridge is in *)
  io_cart_read_rom : Z -> Z  (* m_io_cart->read_rom *)
}.

(** [RAM(config, RAM_TAG).set_default_size("64K").set_extra_options("96K")] *)
Definition ram_default_size : Z := 64 * 1024.
Definition ram_extra_option : Z := 96 * 1024.

(** ** The driver state *)

Record pc8401a_state := mk_state {
  m_key_strobe : Z;              (* int: key pressed *)
  m_mmr : Z;                     (* uint8_t: memory mapping register *)
  m_io_addr : Z;                 (* uint32_t: I/O ROM address counter *)
  m_key_latch : Z;               (* uint8_t *)
  m_key_irq_enable : bool;
  m_cart_rom : bool;             (* m_cart_rom != nullptr *)
  program : address_space;       (* m_maincpu->space(AS_PROGRAM) *)
  entry : membank -> Z;          (* current entry of each bank *)
  ram : Z -> Z;                  (* m_ram->pointer() *)
  crt_ram : Z -> Z;              (* m_crt_ram *)
  maincpu : list cpu_call;       (* calls on m_maincpu, the latest first *)
  rtc_cs : Z;                    (* chip select line of m_rtc *)
  errorlog : list string         (* logerror output, the latest first *)
}.

Definition cmd := pc8401a_state -> pc8401a_state.

Definition set_key_strobe (v : Z) : cmd := fun s =>
  mk_state v (m_mmr s) (m_io_addr s) (m_key_latch s) (m_key_irq_enable s)
    (m_cart_rom s) (program s) (entry s) (ram s) (crt_ram s) (maincpu s)
    (rtc_cs s) (errorlog s).

Definition set_mmr (v : Z) : cmd := fun s =>
  mk_state (m_key_strobe s) v (m_io_addr s) (m_key_latch s) (m_key_irq_enable s)
    (m_cart_rom s) (program s) (entry s) (ram s) (crt_ram s) (maincpu s)
    (rtc_cs s) (errorlog s).

Definition set_io_addr (v : Z) : cmd := fun s =>
  mk_state (m_key_strobe s) (m_mmr s) v (m_key_latch s) (m_key_irq_enable s)
    (m_cart_rom s) (program s) (entry s) (ram s) (crt_ram s) (maincpu s)
    (rtc_cs s) (errorlog s).

Definition set_key_latch (v : Z) : cmd := fun s =>
  mk_state (m_key_strobe s) (m_mmr s) (m_io_addr s) v (m_key_irq_enable s)
    (m_cart_rom s) (program s) (entry s) (ram s) (crt_ram s) (maincpu s)
    (rtc_cs s) (errorlog s).

Definition set_key_irq_enable (v : bool) : cmd := fun s =>
  mk_state (m_key_strobe s) (m_mmr s) (m_io_addr s) (m_key_latch s) v
    (m_cart_rom s) (program s) (entry s) (ram s) (crt_ram s) (maincpu s)
    (rtc_cs s) (errorlog s).

Definition set_cart_rom (v : bool) : cmd := fun s =>
  mk_state (m_key_strobe s) (m_mmr s) (m_io_addr s) (m_key_latch s)
    (m_key_irq_enable s) v (program s) (entry s) (ram s) (crt_ram s)
    (maincpu s) (rtc_cs s) (errorlog s).

Definition set_program (v : address_space) : cmd := fun s =>
  mk_state (m_key_strobe s) (m_mmr s) (m_io_addr s) (m_key_latch s)
    (m_key_irq_enable s) (m_cart_rom s) v (entry s) (ram s) (crt_ram s)
    (maincpu s) (rtc_cs s) (errorlog s).

Definition set_entries (v : membank -> Z) : cmd := fun s =>
  mk_state (m_key_strobe s) (m_mmr s) (m_io_addr s) (m_key_latch s)
    (m_key_irq_enable s) (m_cart_rom s) (program s) v (ram s) (crt_ram s)
    (maincpu s) (rtc_cs s) (errorlog s).

Definition set_ram (v : Z -> Z) : cmd := fun s =>
  mk_state (m_key_strobe s) (m_mmr s) (m_io_addr s) (m_key_latch s)
    (m_key_irq_enable s) (m_cart_rom s) (program s) (entry s) v (crt_ram s)
    (maincpu s) (rtc_cs s) (errorlog s).

Definition set_crt_ram (v : Z -> Z) : cmd := fun s =>
  mk_state (m_key_strobe s) (m_mmr s) (m_io_addr s) (m_key_latch s)
    (m_key_irq_enable s) (m_cart_rom s) (program s) (entry s) (ram s) v
    (maincpu s) (rtc_cs s) (errorlog s).

Definition set_maincpu (v : list cpu_call) : cmd := fun s =>
  mk_state (m_key_strobe s) (m_mmr s) (m_io_addr s) (m_key_latch s)
    (m_key_irq_enable s) (m_cart_rom s) (program s) (entry s) (ram s)
    (crt_ram s) v (rtc_cs s) (errorlog s).

Definition set_rtc_cs (v : Z) : cmd := fun s =>
  mk_state (m_key_strobe s) (m_mmr s) (m_io_addr s) (m_key_latch s)
    (m_key_irq_enable s) (m_cart_rom s) (program s) (entry s) (ram s)
    (crt_ram s) (maincpu s) v (errorlog s).

Definition set_errorlog (v : list string) : cmd := fun s =>
  mk_state (m_key_strobe s) (m_mmr s) (m_io_addr s) (m_key_latch s)
    (m_key_irq_enable s) (m_cart_rom s) (program s) (entry s) (ram s)
    (crt_ram s) (maincpu s) (rtc_cs s) v.

(** Statements in sequence. *)
Definition then_ (c1 c2 : cmd) : cmd := fun s => c2 (c1 s).
Notation "c1 ;; c2" := (then_ c1 c2) (at level 61, right associativity).

Definition skip : cmd := fun s => s.

(** The device calls the driver makes. *)
Definition program_install (op : install) : cmd := fun s =>
  set_program (op :: program s) s.

Definition membank_set_entry (b : membank) (e : Z) : cmd := fun s =>
  set_entries (fun b' => if membank_eqb b' b then e else entry s b') s.

Definition maincpu_call (c : cpu_call) : cmd := fun s =>
  set_maincpu (c :: maincpu s) s.

Definition logerror (msg : string) : cmd := fun s =>
  set_errorlog (msg :: errorlog s) s.

(** Level of the IRQ0 line: what the latest call on the CPU left it at. *)
Definition irq0_line (s : pc8401a_state) : line_state :=
  match maincpu s with
  | [] => CLEAR_LINE
  | set_input_line _ st :: _ => st
  | set_input_line_and_vector _ st _ :: _ => st
  end.

(** ** Memory banking *)

Definition bankswitch (cfg : machine_config) (data : Z) : cmd :=
  let rombank := Z.land data 0x03 in
  let ram0000 := Z.land (Z.shiftr data 2) 0x03 in
  let ram8000 := Z.land (Z.shiftr data 4) 0x03 in
  (match ram0000 with
   | 0 => (* ROM 0000H to 7FFFH *)
       if rombank <? 3 then
         (* internal ROM *)
         program_install (install_read_bank 0x0000 0x7fff bank1) ;;
         program_install (unmap_write 0x0000 0x7fff) ;;
         membank_set_entry bank1 rombank
       else fun s =>
         if m_cart_rom s then
           (* ROM cartridge *)
           (program_install (install_read_bank 0x0000 0x7fff bank1) ;;
            program_install (unmap_write 0x0000 0x7fff) ;;
            membank_set_entry bank1 6) s
         else
           program_install (unmap_readwrite 0x0000 0x7fff) s
   | 1 => (* RAM 0000H to 7FFFH *)
       program_install (install_readwrite_bank 0x0000 0x7fff bank1) ;;
       membank_set_entry bank1 4
   | 2 => (* RAM 8000H to FFFFH *)
       program_install (install_readwrite_bank 0x0000 0x7fff bank1) ;;
       membank_set_entry bank1 5
   | 3 => (* invalid *)
       logerror ("0x0000-0x7fff = invalid" ++ newline)%string
   | _ => skip
   end) ;;
  (match ram8000 with
   | 0 => (* cell addresses 0000H to 3FFFH *)
       program_install (install_readwrite_bank 0x8000 0xbfff bank3) ;;
       membank_set_entry bank3 0
   | 1 => (* cell addresses 4000H to 7FFFH *)
       program_install (install_readwrite_bank 0x8000 0xbfff bank3) ;;
       membank_set_entry bank3 1
   | 2 => (* cell addresses 8000H to BFFFH *)
       program_install (install_readwrite_bank 0x8000 0xbfff bank3) ;;
       membank_set_entry bank3 2
   | 3 => (* RAM cartridge *)
       if 64 <? ram_size cfg then
         program_install (install_readwrite_bank 0x8000 0xbfff bank3) ;;
         membank_set_entry bank3 3
       else
         program_install (unmap_readwrite 0x8000 0xbfff)
   | _ => skip
   end) ;;
  (if BIT data 6 =? 0 then
     (* RAM *)
     program_install (install_readwrite_bank 0xc000 0xe7ff bank4) ;;
     membank_set_entry bank4 0
   else
     (* CRT video RAM *)
     program_install (install_readwrite_bank 0xc000 0xdfff bank4) ;;
     program_install (unmap_readwrite 0xe000 0xe7ff) ;;
     membank_set_entry bank4 1).

Definition mmr_w (cfg : machine_config) (data : Z) : cmd := fun s =>
  set_mmr data (if negb (data =? m_mmr s) then bankswitch cfg data s else s).

Definition mmr_r (s : pc8401a_state) : Z := m_mmr s.

(** ** Keyboard *)

(** One turn of the loop of [scan_keyboard]: the local [strobe] and the
    member [m_key_latch] after row [row] was read. *)
Definition scan_row (Y : ioport_array) (acc : Z * Z) (row : nat) : Z * Z :=
  let data := u8 (Y row) in
  if negb (data =? 0xff) then (1, data) else acc.

(** [for (int row = 0; row < 10; row++)] from [strobe = 0]. *)
Definition scan_rows (Y : ioport_array) (latch : Z) : Z * Z :=
  fold_left (scan_row Y) (seq 0 10) (0, latch).

Definition scan_keyboard (Y : ioport_array) : cmd := fun s =>
  if negb (m_key_irq_enable s) then s
  else
    let '(strobe, latch) := scan_rows Y (m_key_latch s) in
    (set_key_latch latch ;;
     (if (m_key_strobe s =? 0) && negb (strobe =? 0) then
        (* Z80 - RST 28h *)
        maincpu_call (set_input_line_and_vector INPUT_LINE_IRQ0 ASSERT_LINE 0xef)
      else skip) ;;
     (if negb (strobe =? 0) then set_key_strobe strobe else skip)) s.

Definition keyboard_tick (Y : ioport_array) : cmd := scan_keyboard Y.

Definition port70_r (s : pc8401a_state) : Z :=
  Z.lor 0x10 (Z.land (m_key_strobe s) 1).

Definition port71_r (s : pc8401a_state) : Z := m_key_latch s.

Definition port70_w (data : Z) : cmd := set_key_strobe 0.

Definition port71_w (data : Z) : cmd := fun s =>
  (maincpu_call (set_input_line INPUT_LINE_IRQ0 CLEAR_LINE) ;;
   (* guess: machine starts with a 0x10 -> 0x18 transition -> ei *)
   (if (data =? 0x18) && (m_key_latch s =? 0x10)
    then set_key_irq_enable true else skip) ;;
   set_key_latch data) s.

(** ** I/O ROM cartridge *)

Definition io_rom_data_r (cfg : machine_config) (s : pc8401a_state) : Z :=
  io_cart_read_rom cfg (m_io_addr s).

Definition io_rom_addr_w (offset data : Z) : cmd := fun s =>
  match offset with
  | 0 => (* A17..A16 *)
      set_io_addr
        (Z.lor (Z.shiftl (Z.land data 0x03) 16) (Z.land (m_io_addr s) 0xffff)) s
  | 1 => (* A15..A8 *)
      set_io_addr (Z.lor (Z.land (m_io_addr s) 0x300ff) (Z.shiftl data 8)) s
  | 2 => (* A7..A0 *)
      set_io_addr (Z.lor (Z.land (m_io_addr s) 0x3ff00) data) s
  | _ => s
  end.

(** ** Start and reset *)

(** The object as constructed: the member initialisers of the class, the
    address map [pc8401a_mem] and the devices before any call. *)
Definition constructed (cfg : machine_config) : pc8401a_state :=
  {| m_key_strobe := 0;
     m_mmr := 0;
     m_io_addr := 0;
     m_key_latch := 0;
     m_key_irq_enable := false;
     m_cart_rom := false;
     program := [ install_readwrite_bank 0xe800 0xffff bank5;
                  install_readwrite_bank 0xc000 0xe7ff bank4;
                  install_readwrite_bank 0x8000 0xbfff bank3;
                  install_readwrite_bank 0x0000 0x7fff bank1 ];
     entry := fun _ => 0;
     ram := ram_init cfg;
     crt_ram := fun _ => 0;
     maincpu := [];
     rtc_cs := 0;
     errorlog := [] |}.

Definition machine_start (cfg : machine_config) : cmd :=
  set_cart_rom (match cart cfg with Some _ => true | None => false end) ;;
  (* initialize RTC *)
  set_rtc_cs 1 ;;
  (* set up A0/A1 memory banking *)
  membank_set_entry bank1 0 ;;
  (* set up A2 memory banking *)
  membank_set_entry bank3 0 ;;
  (* set up A3 memory banking *)
  membank_set_entry bank4 0 ;;
  (* set up A4 memory banking *)
  membank_set_entry bank5 0 ;;
  (* bank switch *)
  bankswitch cfg 0.

Definition machine_reset : cmd := set_key_irq_enable false.

(** ** Memory seen by the CPU *)

Inductive region := REGION_ROM | REGION_RAM | REGION_CRT_RAM | REGION_CART.

(** The entries configured in [machine_start]: where entry [e] of a bank
    begins.  [None] for an entry that was never configured. *)
Definition bank_base (s : pc8401a_state) (b : membank) (e : Z)
  : option (region * Z) :=
  match b with
  | bank1 =>
      if (0 <=? e) && (e <? 4) then Some (REGION_ROM, e * 0x8000)
      else if (4 <=? e) && (e <? 6) then Some (REGION_RAM, (e - 4) * 0x8000)
      else if (e =? 6) && m_cart_rom s then Some (REGION_CART, 0)
      else None
  | bank3 =>
      if (0 <=? e) && (e <? 5) then Some (REGION_RAM, e * 0x4000) else None
  | bank4 =>
      if e =? 0 then Some (REGION_RAM, 0xc000)
      else if e =? 1 then Some (REGION_CRT_RAM, 0)
      else None
  | bank5 => if e =? 0 then Some (REGION_RAM, 0xe800) else None
  end.

(** Where a handler leads: the region and the offset in it. *)
Definition resolve (s : pc8401a_state) (h : handler) (a : Z)
  : option (region * Z) :=
  match h with
  | unmapped => None
  | banked lo b =>
      match bank_base s b (entry s b) with
      | Some (r, base) => Some (r, base + (a - lo))
      | None => None
      end
  end.

Definition region_read (cfg : machine_config) (s : pc8401a_state)
  (r : region) (off : Z) : Z :=
  match r with
  | REGION_ROM => rom cfg off
  | REGION_RAM => ram s off
  | REGION_CRT_RAM => crt_ram s off
  | REGION_CART => match cart cfg with Some c => c off | None => 0xff end
  end.

(** A read of the program space; [unmap_value_high] gives 0xff where
    nothing is mapped. *)
Definition program_read (cfg : machine_config) (s : pc8401a_state) (a : Z) : Z :=
  match resolve s (read_handler (program s) a) a with
  | Some (r, off) => region_read cfg s r off
  | None => 0xff
  end.

Definition poke (m : Z -> Z) (off v : Z) : Z -> Z :=
  fun x => if x =? off then v else m x.

(** A write to the program space; dropped where nothing is mapped for
    writing.  The driver never maps a ROM for writing once started. *)
Definition program_write (a v : Z) : cmd := fun s =>
  match resolve s (write_handler (program s) a) a with
  | Some (REGION_RAM, off) => set_ram (poke (ram s) off v) s
  | Some (REGION_CRT_RAM, off) => set_crt_ram (poke (crt_ram s) off v) s
  | _ => s
  end.

(** ** The I/O map [pc8500_io] *)

(** Writes, for the ports the driver itself handles; [global_mask(0xff)]. *)
Definition io_write (cfg : machine_config) (port data : Z) : cmd :=
  let p := Z.land port 0xff in
  if p =? 0x30 then mmr_w cfg data
  else if p =? 0x70 then port70_w data
  else if p =? 0x71 then port71_w data
  else if (0xb0 <=? p) && (p <=? 0xb3) then io_rom_addr_w (p - 0xb0) data
  else skip.

(** Reads: the byte and the state after the read.  A port with nothing
    mapped for reading gives 0xff ([unmap_value_high]; so do the ports
    marked [noprw]).  [None] stands for what the UART (0x20, 0x21), the RTC
    lines (0x40) and the LCD controller (0x60, 0x61) answer. *)
Definition io_read (cfg : machine_config) (Y : ioport_array) (port : Z)
  (s : pc8401a_state) : option Z * pc8401a_state :=
  let p := Z.land port 0xff in
  if (0x00 <=? p) && (p <=? 0x09) then (Some (u8 (Y (Z.to_nat p))), s)
  else if p =? 0x30 then (Some (mmr_r s), s)
  else if p =? 0x70 then (Some (port70_r s), s)
  else if p =? 0x71 then (Some (port71_r s), s)
  else if p =? 0xb3 then (Some (io_rom_data_r cfg s), s)
  else if ((0x20 <=? p) && (p <=? 0x21)) || (p =? 0x40)
          || ((0x60 <=? p) && (p <=? 0x61))
  then (None, s)
  else (Some 0xff, s).

(** ** Runs of the machine *)

(** What happens to a started machine, one event at a time. *)
Inductive event :=
| ev_io_write (port data : Z)
| ev_mem_write (a v : Z)
| ev_keyboard_tick (Y : ioport_array)
| ev_reset.

Definition step (cfg : machine_config) (e : event) : cmd :=
  match e with
  | ev_io_write port data => io_write cfg port (u8 data)
  | ev_mem_write a v => program_write a (u8 v)
  | ev_keyboard_tick Y => keyboard_tick Y
  | ev_reset => machine_reset
  end.

Definition run (cfg : machine_config) (es : list event) : cmd :=
  fun s => fold_left (fun s e => step cfg e s) es s.

(** Power on: the object is constructed, started, then reset. *)
Definition power_on (cfg : machine_config) : pc8401a_state :=
  machine_reset (machine_start cfg (constructed cfg)).

Definition reachable (cfg : machine_config) (s : pc8401a_state) : Prop :=
  exists es, s = run cfg es (power_on cfg).

(** Ticks in a row, one matrix reading each. *)
Definition ticks (Ys : list ioport_array) : cmd :=
  fun s => fold_left (fun s Y => keyboard_tick Y s) Ys s.

(** A matrix reading with no key down, and one with a key down. *)
Definition row_idle (Y : ioport_array) (row : nat) : bool := u8 (Y row) =? 0xff.

Definition all_idle (Y : ioport_array) : bool :=
  forallb (row_idle Y) (seq 0 10).

Definition asserts (calls : list cpu_call) : nat :=
  List.length (filter (fun c => match c with
                           | set_input_line _ ASSERT_LINE => true
                           | set_input_line_and_vector _ ASSERT_LINE _ => true
                           | _ => false
                           end) calls).

(** A command that touches the address space, the bank entries and the
    log, and nothing else of the driver. *)
Definition banking_only (c : cmd) : Prop :=
  forall s, exists p e l,
    c s = set_errorlog l (set_entries e (set_program p s)).

(** ** Machines and inputs used as examples *)

(** The PC-8500 as configured by default: 64K of RAM, the ROM region
    erased to 0xff, no cartridge in either slot. *)
Definition pc8500_64k : machine_config :=
  {| ram_size := ram_default_size;
     ram_init := fun _ => 0;
     rom := fun _ => 0xff;
     cart := None;
     io_cart_read_rom := fun _ => 0xff |}.

(** The same with the 96K RAM option. *)
Definition pc8500_96k : machine_config :=
  {| ram_size := ram_extra_option;
     ram_init := fun _ => 0;
     rom := fun _ => 0xff;
     cart := None;
     io_cart_read_rom := fun _ => 0xff |}.

(** No key down. *)
Definition no_key : ioport_array := fun _ => 0xff.

(** Bit 1 of row 2 and bit 6 of row 7 pulled low. *)
Definition two_keys : ioport_array :=
  fun r => match r with 2%nat => 0xfd | 7%nat => 0xbf | _ => 0xff end.

(** The machine after the MMR was written 0x04 (RAM in the low window)
    and then 0x0C (low window source 3). *)
Definition ram_then_invalid : pc8401a_state :=
  run pc8500_64k [ev_io_write 0x30 0x04; ev_io_write 0x30 0x0c]
    (power_on pc8500_64k).

(** The machine after the MMR was written 0x30 (mid window source 3). *)
Definition ram_cartridge_selected : pc8401a_state :=
  run pc8500_64k [ev_io_write 0x30 0x30] (power_on pc8500_64k).

(** The machine with the keyboard enabled, a key seen by a scan, and RAM
    in the low window. *)
Definition key_pending : pc8401a_state :=
  run pc8500_64k
    [ev_io_write 0x71 0x10; ev_io_write 0x71 0x18;
     ev_keyboard_tick two_keys; ev_io_write 0x30 0x04]
    (power_on pc8500_64k).

(** The machine reset while a key is pending: the scan was enabled, a
    tick saw a key, then the machine was reset. *)
Definition reset_with_key_pending : pc8401a_state :=
  run pc8500_64k
    [ev_io_write 0x71 0x10; ev_io_write 0x71 0x18;
     ev_keyboard_tick two_keys; ev_reset]
    (power_on pc8500_64k).

(** ** Statements compared with the driver *)

(** Nothing is mapped in [lo, hi]: neither for reading nor for writing. *)
Definition window_unmapped (lo hi : Z) (s : pc8401a_state) : Prop :=
  forall a, lo <= a <= hi ->
    read_handler (program s) a = unmapped /\
    write_handler (program s) a = unmapped.

(** The same bank answers every address, read and write, in both states. *)
Definition same_mapping (s1 s2 : pc8401a_state) : Prop :=
  forall a,
    resolve s1 (read_handler (program s1) a) a =
    resolve s2 (read_handler (program s2) a) a /\
    resolve s1 (write_handler (program s1) a) a =
    resolve s2 (write_handler (program s2) a) a.

(** A reset that clears the whole keyboard state, holds the RTC selected,
    keeps the MMR and resolves the banks again as for MMR value 0. *)
Definition reset_clears_keyboard_and_banks (cfg : machine_config)
  (s : pc8401a_state) : Prop :=
  let s' := machine_reset s in
  m_key_irq_enable s' = false /\
  m_key_strobe s' = 0 /\
  m_key_latch s' = 0 /\
  rtc_cs s' = 1 /\
  m_mmr s' = m_mmr s /\
  same_mapping s' (bankswitch cfg 0 s).

(** ** Resolved addresses *)

(** The read handler and the write handler of an address. *)
Definition handlers_at (s : pc8401a_state) (a : Z) : handler * handler :=
  (read_handler (program s) a, write_handler (program s) a).

(** Where a read and a write of an address lead. *)
Definition mapping_at (s : pc8401a_state) (a : Z)
  : option (region * Z) * option (region * Z) :=
  (resolve s (read_handler (program s) a) a,
   resolve s (write_handler (program s) a) a).

(** Whether a cartridge region is there for [machine_start] to find. *)
Definition cart_present (cfg : machine_config) : bool :=
  match cart cfg with Some _ => true | None => false end.

(** What holds of the banking in every reachable state. *)
Definition banking_settled (cfg : machine_config) (s : pc8401a_state) : Prop :=
  m_cart_rom s = cart_present cfg /\
  (forall a, 0xe800 <= a <= 0xffff ->
     handlers_at s a = (banked 0xe800 bank5, banked 0xe800 bank5)) /\
  entry s bank5 = 0 /\
  (forall a, handlers_at (bankswitch cfg (m_mmr s) s) a = handlers_at s a) /\
  (forall b, entry (bankswitch cfg (m_mmr s) s) b = entry s b).

(** ** RTC *)

(** Calls made on [m_rtc] by the port handlers, in the order made. *)
Inductive rtc_call :=
| c0_w (state : Z)
| c1_w (state : Z)
| c2_w (state : Z)
| data_in_w (state : Z)
| oe_w (state : Z)
| stb_w (state : Z)
| clk_w (state : Z).

Definition rtc_cmd_w (data : Z) : list rtc_call :=
  [ c0_w (BIT data 0); c1_w (BIT data 1); c2_w (BIT data 2);
    data_in_w (BIT data 3) ].

Definition rtc_ctrl_w (data : Z) : list rtc_call :=
  [ oe_w (BIT data 0); stb_w (BIT data 1); clk_w (BIT data 2) ].

(** [rtc_r], from what [data_out_r] and [tp_r] of the RTC return. *)
Definition rtc_r (data_out_r tp_r : Z) : Z :=
  u8 (Z.lor (Z.shiftl data_out_r 1) (Z.shiftl tp_r 2)).

(** * Properties *)

(** ** Frame facts about bank resolution *)

Ltac bankswitch_cases :=
  unfold bankswitch, then_, skip, program_install, membank_set_entry, logerror;
  repeat match goal with
         | |- context [match ?x with _ => _ end] => destruct x eqn:?
         end.

Lemma banking_only_skip : banking_only skip.
Proof. intros s. exists (program s), (entry s), (errorlog s). now destruct s. Qed.

Lemma banking_only_install op : banking_only (program_install op).
Proof.
  intros s. exists (op :: program s), (entry s), (errorlog s). now destruct s.
Qed.

Lemma banking_only_set_entry b e : banking_only (membank_set_entry b e).
Proof.
  intros s.
  exists (program s), (fun b' => if membank_eqb b' b then e else entry s b'),
    (errorlog s).
  now destruct s.
Qed.

Lemma banking_only_logerror msg : banking_only (logerror msg).
Proof.
  intros s. exists (program s), (entry s), (msg :: errorlog s). now destruct s.
Qed.

Lemma banking_only_then c1 c2 :
  banking_only c1 -> banking_only c2 -> banking_only (c1 ;; c2).
Proof.
  intros H1 H2 s. unfold then_.
  destruct (H1 s) as (p1 & e1 & l1 & ->).
  destruct (H2 (set_errorlog l1 (set_entries e1 (set_program p1 s))))
    as (p2 & e2 & l2 & ->).
  exists p2, e2, l2. reflexivity.
Qed.

Lemma banking_only_if_cart c1 c2 :
  banking_only c1 -> banking_only c2 ->
  banking_only (fun s => if m_cart_rom s then c1 s else c2 s).
Proof. intros H1 H2 s. destruct (m_cart_rom s); [apply H1 | apply H2]. Qed.

Ltac banking_only_step :=
  lazymatch goal with
  | |- banking_only (_ ;; _) => apply banking_only_then
  | |- banking_only (match ?x with _ => _ end) => destruct x
  | |- banking_only (fun s => if m_cart_rom s then _ else _) =>
      apply banking_only_if_cart
  | |- banking_only (program_install _) => apply banking_only_install
  | |- banking_only (membank_set_entry _ _) => apply banking_only_set_entry
  | |- banking_only (logerror _) => apply banking_only_logerror
  | |- banking_only skip => apply banking_only_skip
  end.

Lemma bankswitch_frame cfg data : banking_only (bankswitch cfg data).
Proof. unfold bankswitch. repeat banking_only_step. Qed.

Lemma bankswitch_key_strobe cfg data s :
  m_key_strobe (bankswitch cfg data s) = m_key_strobe s.
Proof.
  destruct (bankswitch_frame cfg data s) as (p & e & l & ->); reflexivity.
Qed.

Lemma bankswitch_mmr cfg data s :
  m_mmr (bankswitch cfg data s) = m_mmr s.
Proof.
  destruct (bankswitch_frame cfg data s) as (p & e & l & ->); reflexivity.
Qed.

(** Every path through [bankswitch] makes a call on the address space. *)
Lemma bankswitch_installs cfg data s :
  (List.length (program s) < List.length (program (bankswitch cfg data s)))%nat.
Proof. bankswitch_cases; simpl; lia. Qed.

Lemma set_mmr_same s : set_mmr (m_mmr s) s = s.
Proof. destruct s; reflexivity. Qed.

(** ** Memory mapping register *)

(** C1.  Writing to the MMR the value it already holds changes nothing of
    the state: no call is made on the address space or on the banks, so
    [bankswitch], which makes such a call on every path, did not run.
    Writing another value runs [bankswitch] on that value at once.  In both
    cases the MMR then reads back the value written. *)
Theorem mmr_w_same_is_noop_else_bankswitch :
  forall cfg s v,
    mmr_r (mmr_w cfg v s) = v /\
    (v = m_mmr s ->
       mmr_w cfg v s = s /\
       program (mmr_w cfg v s) = program s /\
       entry (mmr_w cfg v s) = entry s) /\
    (v <> m_mmr s ->
       mmr_w cfg v s = set_mmr v (bankswitch cfg v s) /\
       program (mmr_w cfg v s) = program (bankswitch cfg v s) /\
       entry (mmr_w cfg v s) = entry (bankswitch cfg v s)) /\
    (List.length (program s)
     < List.length (program (bankswitch cfg v s)))%nat.
Proof.
  intros cfg s v. unfold mmr_w, mmr_r.
  split; [reflexivity|]. split; [|split].
  - intros ->. rewrite Z.eqb_refl. cbn [negb]. rewrite set_mmr_same. auto.
  - intros Hne. apply Z.eqb_neq in Hne. rewrite Hne. cbn [negb]. auto.
  - apply bankswitch_installs.
Qed.

Lemma mmr_w_same_is_noop_else_bankswitch_witness :
  mmr_w pc8500_64k 0x00 (power_on pc8500_64k) = power_on pc8500_64k /\
  program (mmr_w pc8500_64k 0x04 (power_on pc8500_64k)) =
  program (bankswitch pc8500_64k 0x04 (power_on pc8500_64k)).
Proof.
  assert (H0 : 0x00 = m_mmr (power_on pc8500_64k)) by (vm_compute; reflexivity).
  assert (H4 : 0x04 <> m_mmr (power_on pc8500_64k))
    by (vm_compute; discriminate).
  split.
  - destruct (mmr_w_same_is_noop_else_bankswitch pc8500_64k
                (power_on pc8500_64k) 0x00) as (_ & Hsame & _).
    exact (proj1 (Hsame H0)).
  - destruct (mmr_w_same_is_noop_else_bankswitch pc8500_64k
                (power_on pc8500_64k) 0x04) as (_ & _ & Hnew & _).
    exact (proj1 (proj2 (Hnew H4))).
Defined.

(** ** Keyboard scan *)

Section Scan.
Variable Y : ioport_array.

Lemma scan_row_idle acc row :
  row_idle Y row = true -> scan_row Y acc row = acc.
Proof. unfold row_idle, scan_row. intros ->. reflexivity. Qed.

Lemma scan_row_key acc row :
  row_idle Y row = false -> scan_row Y acc row = (1, u8 (Y row)).
Proof. unfold row_idle, scan_row. intros ->. reflexivity. Qed.

(** Rows that are all idle leave [strobe] and the latch alone. *)
Lemma scan_idle_rows rows : forall acc,
  forallb (row_idle Y) rows = true ->
  fold_left (scan_row Y) rows acc = acc.
Proof.
  induction rows as [|r rows IH]; intros acc H; simpl in *; [reflexivity|].
  apply andb_prop in H as [Hr Hrows].
  rewrite scan_row_idle by assumption. now apply IH.
Qed.

(** The last row with a key down decides the latch. *)
Lemma scan_last_key before row after acc :
  row_idle Y row = false ->
  forallb (row_idle Y) after = true ->
  fold_left (scan_row Y) (before ++ row :: after) acc = (1, u8 (Y row)).
Proof.
  intros Hrow Hafter. rewrite fold_left_app. simpl.
  rewrite scan_row_key by assumption. now apply scan_idle_rows.
Qed.

(** [strobe] is 0 while no key was seen and 1 afterwards. *)
Lemma scan_strobe_bit rows : forall acc,
  fst acc = 0 \/ fst acc = 1 ->
  fst (fold_left (scan_row Y) rows acc) = 0 \/
  fst (fold_left (scan_row Y) rows acc) = 1.
Proof.
  induction rows as [|r rows IH]; intros acc H; simpl; [assumption|].
  apply IH. unfold scan_row. destruct (negb _); simpl; auto.
Qed.

(** A key down somewhere leaves [strobe] at 1. *)
Lemma scan_some_key rows : forall acc,
  forallb (row_idle Y) rows = false ->
  fst (fold_left (scan_row Y) rows acc) = 1.
Proof.
  induction rows as [|r rows IH]; intros acc H; simpl in *; [discriminate|].
  destruct (row_idle Y r) eqn:Hr; simpl in H.
  - rewrite scan_row_idle by assumption. now apply IH.
  - rewrite scan_row_key by assumption.
    destruct (forallb (row_idle Y) rows) eqn:Hrows.
    + now rewrite scan_idle_rows.
    + now apply IH.
Qed.
End Scan.

Lemma set_key_latch_same s : set_key_latch (m_key_latch s) s = s.
Proof. destruct s; reflexivity. Qed.

(** A scan that is not enabled does nothing at all. *)
Lemma scan_keyboard_disabled Y s :
  m_key_irq_enable s = false -> scan_keyboard Y s = s.
Proof. unfold scan_keyboard. intros ->. reflexivity. Qed.

(** An enabled scan that finds no key down does nothing either. *)
Lemma scan_keyboard_idle Y s :
  all_idle Y = true -> scan_keyboard Y s = s.
Proof.
  intros Hidle. unfold scan_keyboard, scan_rows.
  destruct (m_key_irq_enable s); cbn [negb]; [|reflexivity].
  rewrite scan_idle_rows by exact Hidle.
  unfold then_, skip. rewrite andb_false_r. cbn. apply set_key_latch_same.
Qed.

(** An enabled scan that finds a key down: the latch takes the byte of a
    row, the line is asserted when the strobe was clear, the strobe is set. *)
Lemma scan_keyboard_key Y s :
  m_key_irq_enable s = true -> all_idle Y = false ->
  scan_keyboard Y s =
  set_key_strobe 1
    ((if m_key_strobe s =? 0
      then maincpu_call
             (set_input_line_and_vector INPUT_LINE_IRQ0 ASSERT_LINE 0xef)
      else skip)
       (set_key_latch (snd (scan_rows Y (m_key_latch s))) s)).
Proof.
  intros Hen Hkey. unfold scan_keyboard. rewrite Hen. cbn [negb].
  pose proof (scan_some_key Y (seq 0 10) (0, m_key_latch s) Hkey) as Hst.
  fold (scan_rows Y (m_key_latch s)) in Hst.
  destruct (scan_rows Y (m_key_latch s)) as [strobe latch]. simpl in Hst.
  subst strobe. unfold then_. simpl. rewrite andb_true_r. reflexivity.
Qed.

(** Once the strobe is set, no scan asserts the line or clears the strobe. *)
Lemma scan_keyboard_strobed Y s :
  m_key_strobe s = 1 ->
  m_key_strobe (scan_keyboard Y s) = 1 /\
  maincpu (scan_keyboard Y s) = maincpu s /\
  m_key_irq_enable (scan_keyboard Y s) = m_key_irq_enable s.
Proof.
  intros Hst. destruct (m_key_irq_enable s) eqn:Hen.
  - destruct (all_idle Y) eqn:Hidle.
    + rewrite scan_keyboard_idle by assumption. auto.
    + rewrite scan_keyboard_key by assumption. rewrite Hst. simpl. auto.
  - rewrite scan_keyboard_disabled by assumption. auto.
Qed.

Lemma ticks_strobed Ys : forall s,
  m_key_strobe s = 1 ->
  m_key_strobe (ticks Ys s) = 1 /\ maincpu (ticks Ys s) = maincpu s.
Proof.
  induction Ys as [|Y Ys IH]; intros s Hst; simpl; [auto|].
  destruct (scan_keyboard_strobed Y s Hst) as (H1 & H2 & _).
  destruct (IH (keyboard_tick Y s) H1) as (H3 & H4).
  unfold ticks in *. simpl. rewrite H3, H4. auto.
Qed.

Lemma ticks_idle Ys : forall s,
  Forall (fun Y => all_idle Y = true) Ys -> ticks Ys s = s.
Proof.
  induction Ys as [|Y Ys IH]; intros s H; [reflexivity|].
  inversion H; subst. unfold ticks in *. simpl.
  unfold keyboard_tick at 2. rewrite scan_keyboard_idle by assumption.
  now apply IH.
Qed.

(** C6.  While [irq_enabled] is false, any run of ticks, whatever the rows
    read, leaves the whole state as it was: the strobe flag is not set, the
    latched row data is not updated and no call is made on the CPU
    interrupt line. *)
Theorem ticks_disabled_do_nothing :
  forall (Ys : list ioport_array) s,
    m_key_irq_enable s = false ->
    ticks Ys s = s /\
    m_key_strobe (ticks Ys s) = m_key_strobe s /\
    m_key_latch (ticks Ys s) = m_key_latch s /\
    maincpu (ticks Ys s) = maincpu s /\
    irq0_line (ticks Ys s) = irq0_line s.
Proof.
  intros Ys s Hdis.
  assert (H : ticks Ys s = s).
  { induction Ys as [|Y Ys IH]; [reflexivity|].
    unfold ticks in *. simpl. unfold keyboard_tick at 2.
    rewrite scan_keyboard_disabled by assumption. exact IH. }
  rewrite H. auto.
Qed.

Lemma ticks_disabled_do_nothing_witness :
  ticks [two_keys; no_key; two_keys] (power_on pc8500_64k)
  = power_on pc8500_64k.
Proof.
  destruct (ticks_disabled_do_nothing [two_keys; no_key; two_keys]
              (power_on pc8500_64k)) as (H & _).
  - vm_compute. reflexivity.
  - exact H.
Defined.

(** C10.  In an enabled scan, the latch afterwards holds the raw byte of
    the highest-numbered row that reads a value other than 0xFF: rows are
    read from 0 to 9 and every such row overwrites the latch, so when two
    or more rows report a key the last one wins. *)
Theorem scan_latches_highest_row :
  forall Y s (row : nat),
    m_key_irq_enable s = true ->
    (row < 10)%nat ->
    row_idle Y row = false ->
    (forall r, (row < r < 10)%nat -> row_idle Y r = true) ->
    m_key_latch (scan_keyboard Y s) = u8 (Y row) /\
    port71_r (scan_keyboard Y s) = u8 (Y row).
Proof.
  intros Y s row Hen Hlt Hkey Hafter.
  assert (Hrows : scan_rows Y (m_key_latch s) = (1, u8 (Y row))).
  { unfold scan_rows.
    replace (seq 0 10) with (seq 0 row ++ row :: seq (S row) (10 - S row)).
    - apply scan_last_key; [assumption|].
      apply forallb_forall. intros r Hr. apply in_seq in Hr.
      apply Hafter. lia.
    - change (row :: seq (S row) (10 - S row))
        with (seq row 1 ++ seq (S row) (10 - S row)).
      replace (S row) with (row + 1)%nat by lia.
      rewrite <- seq_app. replace (1 + (10 - (row + 1)))%nat with (10 - row)%nat by lia.
      replace row with (0 + row)%nat at 2 by lia.
      rewrite <- seq_app. f_equal. lia. }
  assert (Hnot : all_idle Y = false).
  { unfold all_idle. apply not_true_is_false. intros Hall.
    rewrite forallb_forall in Hall.
    rewrite (Hall row) in Hkey; [discriminate|]. apply in_seq. lia. }
  unfold port71_r. rewrite scan_keyboard_key by assumption.
  rewrite Hrows. destruct (m_key_strobe s =? 0); simpl; auto.
Qed.

Lemma scan_latches_highest_row_witness :
  m_key_latch
    (scan_keyboard two_keys (set_key_irq_enable true (power_on pc8500_64k)))
  = 0xbf /\
  port71_r
    (scan_keyboard two_keys (set_key_irq_enable true (power_on pc8500_64k)))
  = 0xbf.
Proof.
  apply (scan_latches_highest_row two_keys
           (set_key_irq_enable true (power_on pc8500_64k)) 7).
  - reflexivity.
  - lia.
  - reflexivity.
  - intros r Hr.
    assert (Hc : r = 8%nat \/ r = 9%nat) by lia.
    destruct Hc as [-> | ->]; reflexivity.
Defined.

(** ** Keyboard ports *)

Lemma io_write_71 cfg b : io_write cfg 0x71 b = port71_w b.
Proof. reflexivity. Qed.

Lemma io_read_70 cfg Y s : io_read cfg Y 0x70 s = (Some (port70_r s), s).
Proof. reflexivity. Qed.

(** C9.  A write of any byte [b] to port 0x71 overwrites the latch with
    [b], whatever it held (a scanned row byte included), so that the next
    read of port 0x71 gives [b] back; and it clears the CPU interrupt line.
    Neither depends on the value of [b]. *)
Theorem port71_write_latches_and_clears_irq :
  forall cfg Y s b,
    m_key_latch (io_write cfg 0x71 b s) = b /\
    io_read cfg Y 0x71 (io_write cfg 0x71 b s) =
      (Some b, io_write cfg 0x71 b s) /\
    maincpu (io_write cfg 0x71 b s) =
      set_input_line INPUT_LINE_IRQ0 CLEAR_LINE :: maincpu s /\
    irq0_line (io_write cfg 0x71 b s) = CLEAR_LINE.
Proof.
  intros cfg Y s b. rewrite io_write_71.
  assert (Hl : m_key_latch (port71_w b s) = b).
  { unfold port71_w, then_. reflexivity. }
  assert (Hc : maincpu (port71_w b s) =
               set_input_line INPUT_LINE_IRQ0 CLEAR_LINE :: maincpu s).
  { unfold port71_w, then_, skip.
    destruct ((b =? 0x18) && (m_key_latch s =? 0x10)); reflexivity. }
  split; [|split; [|split]].
  - exact Hl.
  - change (io_read cfg Y 0x71 (port71_w b s))
      with (Some (port71_r (port71_w b s)), port71_w b s).
    unfold port71_r. now rewrite Hl.
  - exact Hc.
  - unfold irq0_line. now rewrite Hc.
Qed.

(** The 0x10 then 0x18 writes to port 0x71 enable the scan, clear the
    line and keep the strobe. *)
Lemma enable_sequence cfg s :
  let s1 := io_write cfg 0x71 0x18 (io_write cfg 0x71 0x10 s) in
  m_key_irq_enable s1 = true /\
  m_key_strobe s1 = m_key_strobe s /\
  irq0_line s1 = CLEAR_LINE.
Proof.
  rewrite !io_write_71. unfold port71_w, then_, skip. cbn. auto.
Qed.

(** C5, as stated, fails.  The strobe survives a reset.  On the machine
    reset while a key is pending, the writes 0x10 then 0x18 to port 0x71
    enable the scan, and the next tick finds a key down, yet it makes no
    call on the CPU: the line is left clear, while port 0x70 reads 0x11. *)
Lemma enabled_key_tick_without_irq :
  reachable pc8500_64k reset_with_key_pending /\
  all_idle two_keys = false /\
  m_key_irq_enable
    (io_write pc8500_64k 0x71 0x18
       (io_write pc8500_64k 0x71 0x10 reset_with_key_pending)) = true /\
  maincpu
    (keyboard_tick two_keys
       (io_write pc8500_64k 0x71 0x18
          (io_write pc8500_64k 0x71 0x10 reset_with_key_pending)))
  = maincpu
      (io_write pc8500_64k 0x71 0x18
         (io_write pc8500_64k 0x71 0x10 reset_with_key_pending)) /\
  irq0_line
    (keyboard_tick two_keys
       (io_write pc8500_64k 0x71 0x18
          (io_write pc8500_64k 0x71 0x10 reset_with_key_pending)))
  = CLEAR_LINE /\
  port70_r
    (keyboard_tick two_keys
       (io_write pc8500_64k 0x71 0x18
          (io_write pc8500_64k 0x71 0x10 reset_with_key_pending)))
  = 0x11.
Proof.
  split.
  - exists [ev_io_write 0x71 0x10; ev_io_write 0x71 0x18;
            ev_keyboard_tick two_keys; ev_reset]. reflexivity.
  - repeat match goal with |- _ /\ _ => split end; vm_compute; reflexivity.
Qed.

(** C5, amended.  After 0x10 then 0x18 are written to port 0x71 the scan is
    enabled and the line is clear.  Ticks that find no key down change
    nothing.  The first tick that finds a row other than 0xFF asserts IRQ0
    with vector 0xEF, by one call, exactly when the strobe was clear before
    it, as it is at power on; when the strobe was already set, as after a
    reset with a key pending, it makes no call and the line stays clear.
    Either way the status port 0x70 then reads with bit 0 set, and later
    ticks, with the strobe still set, make no call on the line. *)
Theorem keyboard_irq_on_strobe_edge :
  forall cfg (s : pc8401a_state) (idles : list ioport_array)
         (Y Y' : ioport_array) (more : list ioport_array),
    Forall (fun Y => all_idle Y = true) idles ->
    all_idle Y = false ->
    let s1 := io_write cfg 0x71 0x18 (io_write cfg 0x71 0x10 s) in
    let s2 := ticks idles s1 in
    let s3 := keyboard_tick Y s2 in
    let s4 := ticks more s3 in
    m_key_irq_enable s1 = true /\
    maincpu s2 = maincpu s1 /\
    maincpu s3 =
      (if m_key_strobe s =? 0
       then [set_input_line_and_vector INPUT_LINE_IRQ0 ASSERT_LINE 0xef]
       else []) ++ maincpu s1 /\
    (m_key_strobe s = 0 ->
       irq0_line s3 = ASSERT_LINE /\
       asserts (maincpu s4) = S (asserts (maincpu s1))) /\
    (exists v, io_read cfg Y' 0x70 s3 = (Some v, s3) /\ Z.testbit v 0 = true) /\
    maincpu s4 = maincpu s3 /\
    m_key_strobe s2 = m_key_strobe s /\
    irq0_line s2 = CLEAR_LINE /\
    (m_key_strobe s <> 0 ->
       irq0_line s3 = CLEAR_LINE /\
       irq0_line s4 = CLEAR_LINE /\
       asserts (maincpu s4) = asserts (maincpu s1)).
Proof.
  intros cfg s idles Y Y' more Hidles Hkey s1 s2 s3 s4.
  destruct (enable_sequence cfg s) as (Hen & Hst & Hline).
  fold s1 in Hen, Hst, Hline.
  assert (E2 : s2 = s1) by (apply ticks_idle; assumption).
  assert (E3 : s3 = set_key_strobe 1
                 ((if m_key_strobe s =? 0
                   then maincpu_call
                          (set_input_line_and_vector INPUT_LINE_IRQ0
                             ASSERT_LINE 0xef)
                   else skip)
                    (set_key_latch (snd (scan_rows Y (m_key_latch s1))) s1))).
  { unfold s3, keyboard_tick. rewrite E2.
    rewrite scan_keyboard_key by assumption. now rewrite Hst. }
  assert (H3 : m_key_strobe s3 = 1) by (rewrite E3; reflexivity).
  assert (C3 : maincpu s3 =
               (if m_key_strobe s =? 0
                then [set_input_line_and_vector INPUT_LINE_IRQ0 ASSERT_LINE 0xef]
                else []) ++ maincpu s1).
  { rewrite E3. destruct (m_key_strobe s =? 0); reflexivity. }
  destruct (ticks_strobed more s3 H3) as (_ & C4). fold s4 in C4.
  split; [exact Hen|]. split; [now rewrite E2|]. split; [exact C3|].
  split; [|split; [|split; [exact C4|split; [|split]]]].
  - intros H0. rewrite C4, C3. rewrite H0. simpl.
    unfold irq0_line. rewrite C3, H0. simpl. split; reflexivity.
  - exists (port70_r s3). split; [apply io_read_70|].
    unfold port70_r. rewrite H3. reflexivity.
  - now rewrite E2.
  - now rewrite E2.
  - intros Hne. apply Z.eqb_neq in Hne.
    assert (C3' : maincpu s3 = maincpu s1) by (rewrite C3, Hne; reflexivity).
    unfold irq0_line in *. rewrite C4, C3'. auto.
Qed.

Lemma keyboard_irq_on_strobe_edge_witness :
  let s1 := io_write pc8500_64k 0x71 0x18
              (io_write pc8500_64k 0x71 0x10 (power_on pc8500_64k)) in
  let s3 := keyboard_tick two_keys (ticks [no_key; no_key] s1) in
  maincpu s3 =
    set_input_line_and_vector INPUT_LINE_IRQ0 ASSERT_LINE 0xef :: maincpu s1 /\
  asserts (maincpu (ticks [two_keys; no_key; two_keys] s3)) = 1%nat.
Proof.
  intros s1 s3.
  destruct (keyboard_irq_on_strobe_edge pc8500_64k (power_on pc8500_64k)
              [no_key; no_key] two_keys no_key [two_keys; no_key; two_keys])
    as (_ & _ & H3 & H4 & _).
  - repeat constructor.
  - reflexivity.
  - split; [exact H3|].
    destruct (H4 eq_refl) as (_ & Hn). exact Hn.
Defined.

(** ** The strobe in reachable states *)

Lemma io_rom_addr_w_key_strobe offset data s :
  m_key_strobe (io_rom_addr_w offset data s) = m_key_strobe s.
Proof.
  unfold io_rom_addr_w.
  repeat match goal with
         | |- context [match ?x with _ => _ end] => destruct x
         end; reflexivity.
Qed.

Lemma port71_w_key_strobe data s :
  m_key_strobe (port71_w data s) = m_key_strobe s.
Proof.
  unfold port71_w, then_, skip.
  destruct ((data =? 0x18) && (m_key_latch s =? 0x10)); reflexivity.
Qed.

Lemma mmr_w_key_strobe cfg data s :
  m_key_strobe (mmr_w cfg data s) = m_key_strobe s.
Proof.
  unfold mmr_w. destruct (negb (data =? m_mmr s)); cbn; [|reflexivity].
  apply bankswitch_key_strobe.
Qed.

Lemma program_write_key_strobe a v s :
  m_key_strobe (program_write a v s) = m_key_strobe s.
Proof.
  unfold program_write.
  destruct (resolve s (write_handler (program s) a) a) as [[[] off]|];
    reflexivity.
Qed.

Lemma scan_keyboard_key_strobe Y s :
  m_key_strobe s = 0 \/ m_key_strobe s = 1 ->
  m_key_strobe (scan_keyboard Y s) = 0 \/ m_key_strobe (scan_keyboard Y s) = 1.
Proof.
  intros H. destruct (m_key_irq_enable s) eqn:Hen.
  - destruct (all_idle Y) eqn:Hidle.
    + now rewrite scan_keyboard_idle.
    + rewrite scan_keyboard_key by assumption. right. reflexivity.
  - now rewrite scan_keyboard_disabled.
Qed.

(** The strobe is 0 or 1 at power on and stays so under every event. *)
Lemma step_key_strobe cfg e s :
  m_key_strobe s = 0 \/ m_key_strobe s = 1 ->
  m_key_strobe (step cfg e s) = 0 \/ m_key_strobe (step cfg e s) = 1.
Proof.
  intros H. destruct e as [port data|a v|Y|]; simpl.
  - unfold io_write, skip.
    repeat match goal with
           | |- context [if ?c then _ else _] => destruct c
           end.
    + now rewrite mmr_w_key_strobe.
    + left. reflexivity.
    + now rewrite port71_w_key_strobe.
    + now rewrite io_rom_addr_w_key_strobe.
    + assumption.
  - now rewrite program_write_key_strobe.
  - now apply scan_keyboard_key_strobe.
  - exact H.
Qed.

Lemma run_key_strobe cfg es : forall s,
  m_key_strobe s = 0 \/ m_key_strobe s = 1 ->
  m_key_strobe (run cfg es s) = 0 \/ m_key_strobe (run cfg es s) = 1.
Proof.
  induction es as [|e es IH]; intros s H; [exact H|].
  unfold run in *. simpl. apply IH. now apply step_key_strobe.
Qed.

Lemma reachable_key_strobe cfg s :
  reachable cfg s -> m_key_strobe s = 0 \/ m_key_strobe s = 1.
Proof.
  intros [es ->]. apply run_key_strobe. left.
  reflexivity.
Qed.

(** C8.  In every reachable state a read of status port 0x70 gives 0x10
    or 0x11: bit 4 is 1, bit 0 is the strobe flag, the six other bits are
    0; and the read leaves the state as it is. *)
Theorem port70_read_is_0x10_or_0x11 :
  forall cfg Y s,
    reachable cfg s ->
    io_read cfg Y 0x70 s = (Some (port70_r s), s) /\
    (port70_r s = 0x10 \/ port70_r s = 0x11) /\
    Z.testbit (port70_r s) 4 = true /\
    Z.testbit (port70_r s) 0 = negb (m_key_strobe s =? 0) /\
    (forall i, i <> 0 -> i <> 4 -> Z.testbit (port70_r s) i = false).
Proof.
  intros cfg Y s Hs. split; [apply io_read_70|].
  unfold port70_r.
  destruct (reachable_key_strobe cfg s Hs) as [-> | ->]; cbn;
    (repeat split; auto; intros i H0 H4;
     assert (Hi : i < 0 \/ i = 1 \/ i = 2 \/ i = 3 \/ 5 <= i) by lia;
     destruct Hi as [Hi | [-> | [-> | [-> | Hi]]]]; try reflexivity;
     [ now apply Z.testbit_neg_r
     | apply Z.bits_above_log2; [lia | cbn; lia] ]).
Qed.

Lemma port70_read_is_0x10_or_0x11_witness :
  port70_r (run pc8500_64k
              [ev_io_write 0x71 0x10; ev_io_write 0x71 0x18;
               ev_keyboard_tick two_keys]
              (power_on pc8500_64k)) = 0x11.
Proof.
  destruct (port70_read_is_0x10_or_0x11 pc8500_64k no_key
              (run pc8500_64k
                 [ev_io_write 0x71 0x10; ev_io_write 0x71 0x18;
                  ev_keyboard_tick two_keys]
                 (power_on pc8500_64k)))
    as (_ & [H | H] & _).
  - eexists. reflexivity.
  - discriminate H.
  - exact H.
Defined.

(** ** I/O ROM address *)

(** Bits of a value that fits in [n] bits. *)
Lemma testbit_fits n a i :
  0 <= n -> 0 <= a < 2 ^ n -> 0 <= i ->
  Z.testbit a i = (i <? n) && Z.testbit a i.
Proof.
  intros Hn Ha Hi.
  rewrite <- (Z.mod_small a (2 ^ n)) at 1 by assumption.
  rewrite <- Z.land_ones by assumption.
  rewrite Z.land_spec, Z.testbit_ones_nonneg by assumption.
  apply andb_comm.
Qed.

Ltac split_comparisons :=
  repeat match goal with
         | |- context [?x <=? ?y] => destruct (Z.leb_spec x y)
         | |- context [?x <? ?y] => destruct (Z.ltb_spec x y)
         end.

Ltac close_bits :=
  cbn [andb orb negb];
  rewrite ?andb_true_r, ?andb_false_r, ?orb_true_r, ?orb_false_r;
  try reflexivity; try lia;
  try (rewrite Z.testbit_neg_r by lia; reflexivity).

(** Offset 0 puts the two low bits of the data in A17..A16 of the address
    and keeps A15..A0. *)
Lemma io_rom_addr_w_0 s d i :
  0 <= m_io_addr s < 2 ^ 18 -> 0 <= i ->
  Z.testbit (m_io_addr (io_rom_addr_w 0 d s)) i =
  if (16 <=? i) && (i <? 18) then Z.testbit d (i - 16)
  else Z.testbit (m_io_addr s) i.
Proof.
  intros Ha Hi. cbn [io_rom_addr_w m_io_addr set_io_addr].
  change 0x03 with (Z.ones 2). change 0xffff with (Z.ones 16).
  rewrite Z.lor_spec, Z.shiftl_spec, !Z.land_spec by assumption.
  rewrite !Z.testbit_ones by lia.
  rewrite (testbit_fits 18 (m_io_addr s) i) by lia.
  split_comparisons; close_bits.
Qed.

(** Offset 1 puts the data in A15..A8 and keeps A17..A16 and A7..A0. *)
Lemma io_rom_addr_w_1 s d i :
  0 <= m_io_addr s < 2 ^ 18 -> 0 <= d < 256 -> 0 <= i ->
  Z.testbit (m_io_addr (io_rom_addr_w 1 d s)) i =
  if (8 <=? i) && (i <? 16) then Z.testbit d (i - 8)
  else Z.testbit (m_io_addr s) i.
Proof.
  intros Ha Hd Hi. cbn [io_rom_addr_w m_io_addr set_io_addr].
  change 0x300ff with (Z.lor (Z.shiftl (Z.ones 2) 16) (Z.ones 8)).
  rewrite !Z.lor_spec, !Z.shiftl_spec, Z.land_spec, Z.lor_spec,
    Z.shiftl_spec by assumption.
  rewrite !Z.testbit_ones by lia.
  rewrite (testbit_fits 18 (m_io_addr s) i) by lia.
  destruct (Z.lt_ge_cases i 8) as [Hlo | Hhi].
  - rewrite (Z.testbit_neg_r d (i - 8)) by lia.
    split_comparisons; close_bits.
  - rewrite (testbit_fits 8 d (i - 8)) by lia.
    split_comparisons; close_bits.
Qed.

(** Offset 2 puts the data in A7..A0 and keeps A17..A8. *)
Lemma io_rom_addr_w_2 s d i :
  0 <= m_io_addr s < 2 ^ 18 -> 0 <= d < 256 -> 0 <= i ->
  Z.testbit (m_io_addr (io_rom_addr_w 2 d s)) i =
  if i <? 8 then Z.testbit d i else Z.testbit (m_io_addr s) i.
Proof.
  intros Ha Hd Hi. cbn [io_rom_addr_w m_io_addr set_io_addr].
  change 0x3ff00 with (Z.shiftl (Z.ones 10) 8).
  rewrite Z.lor_spec, Z.land_spec, Z.shiftl_spec by assumption.
  rewrite Z.testbit_ones by lia.
  rewrite (testbit_fits 18 (m_io_addr s) i) by lia.
  rewrite (testbit_fits 8 d i) by lia.
  split_comparisons; close_bits.
Qed.

(** The address stays within 18 bits. *)
Lemma io_rom_addr_w_range offset d s :
  0 <= m_io_addr s < 2 ^ 18 -> 0 <= d < 256 ->
  0 <= m_io_addr (io_rom_addr_w offset d s) < 2 ^ 18.
Proof.
  intros Ha Hd.
  assert (Hbits : forall x, 0 <= x ->
            (forall i, 18 <= i -> Z.testbit x i = false) -> x < 2 ^ 18).
  { intros x Hx Hhigh. destruct (Z.eq_dec x 0) as [-> | Hnz]; [reflexivity|].
    apply Z.log2_lt_pow2; [lia|].
    destruct (Z.lt_ge_cases (Z.log2 x) 18) as [Hl | Hl]; [assumption|].
    pose proof (Z.bit_log2 x ltac:(lia)) as Hb.
    rewrite Hhigh in Hb by assumption. discriminate. }
  assert (Hcase : offset = 0 \/ offset = 1 \/ offset = 2 \/
                  io_rom_addr_w offset d s = s).
  { unfold io_rom_addr_w. destruct offset as [|[[| |]|[| |]|]|]; auto. }
  destruct Hcase as [-> | [-> | [-> | ->]]]; [| | |assumption].
  - split.
    + cbn [io_rom_addr_w m_io_addr set_io_addr].
      rewrite Z.lor_nonneg, Z.shiftl_nonneg, !Z.land_nonneg. lia.
    + apply Hbits.
      * cbn [io_rom_addr_w m_io_addr set_io_addr].
        rewrite Z.lor_nonneg, Z.shiftl_nonneg, !Z.land_nonneg. lia.
      * intros i Hi. rewrite io_rom_addr_w_0 by lia.
        rewrite (testbit_fits 18 (m_io_addr s) i) by lia.
        split_comparisons; close_bits.
  - split.
    + cbn [io_rom_addr_w m_io_addr set_io_addr].
      rewrite Z.lor_nonneg, Z.shiftl_nonneg, !Z.land_nonneg. lia.
    + apply Hbits.
      * cbn [io_rom_addr_w m_io_addr set_io_addr].
        rewrite Z.lor_nonneg, Z.shiftl_nonneg, !Z.land_nonneg. lia.
      * intros i Hi. rewrite io_rom_addr_w_1 by lia.
        rewrite (testbit_fits 18 (m_io_addr s) i) by lia.
        rewrite (testbit_fits 8 d (i - 8)) by lia.
        split_comparisons; close_bits.
  - split.
    + cbn [io_rom_addr_w m_io_addr set_io_addr].
      rewrite Z.lor_nonneg, !Z.land_nonneg. lia.
    + apply Hbits.
      * cbn [io_rom_addr_w m_io_addr set_io_addr].
        rewrite Z.lor_nonneg, !Z.land_nonneg. lia.
      * intros i Hi. rewrite io_rom_addr_w_2 by lia.
        rewrite (testbit_fits 18 (m_io_addr s) i) by lia.
        split_comparisons; close_bits.
Qed.

Lemma u8_range x : 0 <= u8 x < 256.
Proof.
  unfold u8. change 0xff with (Z.ones 8). rewrite Z.land_ones by lia.
  apply Z.mod_pos_bound. reflexivity.
Qed.

Lemma bankswitch_io_addr cfg data s :
  m_io_addr (bankswitch cfg data s) = m_io_addr s.
Proof.
  destruct (bankswitch_frame cfg data s) as (p & e & l & ->); reflexivity.
Qed.

(** In every reachable state the address counter fits in 18 bits. *)
Lemma step_io_addr_range cfg e s :
  0 <= m_io_addr s < 2 ^ 18 -> 0 <= m_io_addr (step cfg e s) < 2 ^ 18.
Proof.
  intros H. destruct e as [port data|a v|Y|]; cbn [step].
  - unfold io_write, skip.
    repeat match goal with
           | |- context [if ?c then _ else _] => destruct c
           end; try assumption.
    + unfold mmr_w. destruct (negb (u8 data =? m_mmr s)); cbn [m_io_addr set_mmr];
        [now rewrite bankswitch_io_addr | assumption].
    + unfold port71_w, then_, skip.
      destruct ((u8 data =? 0x18) && (m_key_latch s =? 0x10)); assumption.
    + apply io_rom_addr_w_range; [assumption | apply u8_range].
  - unfold program_write.
    destruct (resolve s (write_handler (program s) a) a) as [[[] off]|];
      assumption.
  - unfold keyboard_tick.
    destruct (m_key_irq_enable s) eqn:Hen.
    + destruct (all_idle Y) eqn:Hidle.
      * now rewrite scan_keyboard_idle.
      * rewrite scan_keyboard_key by assumption.
        destruct (m_key_strobe s =? 0); assumption.
    + now rewrite scan_keyboard_disabled.
  - assumption.
Qed.

Lemma reachable_io_addr_range cfg s :
  reachable cfg s -> 0 <= m_io_addr s < 2 ^ 18.
Proof.
  intros [es ->].
  assert (H : 0 <= m_io_addr (power_on cfg) < 2 ^ 18)
    by (vm_compute; split; [discriminate | reflexivity]).
  revert H. generalize (power_on cfg). unfold run.
  induction es as [|e es IH]; intros s H; [exact H|].
  cbn [fold_left]. apply IH. now apply step_io_addr_range.
Qed.

Lemma io_write_b0 cfg d : io_write cfg 0xb0 d = io_rom_addr_w 0 d.
Proof. reflexivity. Qed.

Lemma io_write_b1 cfg d : io_write cfg 0xb1 d = io_rom_addr_w 1 d.
Proof. reflexivity. Qed.

Lemma io_write_b2 cfg d : io_write cfg 0xb2 d = io_rom_addr_w 2 d.
Proof. reflexivity. Qed.

Lemma io_write_b3 cfg d : io_write cfg 0xb3 d = io_rom_addr_w 3 d.
Proof. reflexivity. Qed.

(** The three fragments 0x01, 0x23, 0x45 give 0x12345 from any address. *)
Lemma io_rom_addr_12345 s :
  m_io_addr (io_rom_addr_w 2 0x45 (io_rom_addr_w 1 0x23 (io_rom_addr_w 0 0x01 s)))
  = 0x12345.
Proof.
  cbn [io_rom_addr_w m_io_addr set_io_addr].
  change (Z.shiftl (Z.land 1 3) 16) with 0x10000.
  change (Z.shiftl 0x23 8) with 0x2300.
  rewrite !Z.land_lor_distr_l, <- !Z.land_assoc.
  change (Z.land 0xffff (Z.land 0x300ff 0x3ff00)) with 0.
  rewrite Z.land_0_r. reflexivity.
Qed.

(** C7.  From any address, the writes 0x01 to port 0xB0, 0x23 to 0xB1 and
    0x45 to 0xB2 leave the address at 0x12345.  On an 18-bit address each
    fragment write changes its own field only: offset 0 the bits 17..16
    (from the two low bits of the data), offset 1 the bits 15..8, offset 2
    the bits 7..0; a write at offset 3 changes nothing.  A read of port
    0xB3 gives the cartridge's byte at the address and leaves the state,
    the address included, as it is. *)
Theorem io_rom_address_fragments :
  forall cfg Y s,
    m_io_addr (io_write cfg 0xb2 0x45
                 (io_write cfg 0xb1 0x23 (io_write cfg 0xb0 0x01 s)))
    = 0x12345 /\
    (forall d i,
       0 <= m_io_addr s < 2 ^ 18 -> 0 <= d < 256 -> 0 <= i ->
       Z.testbit (m_io_addr (io_write cfg 0xb0 d s)) i =
         (if (16 <=? i) && (i <? 18) then Z.testbit d (i - 16)
          else Z.testbit (m_io_addr s) i) /\
       Z.testbit (m_io_addr (io_write cfg 0xb1 d s)) i =
         (if (8 <=? i) && (i <? 16) then Z.testbit d (i - 8)
          else Z.testbit (m_io_addr s) i) /\
       Z.testbit (m_io_addr (io_write cfg 0xb2 d s)) i =
         (if i <? 8 then Z.testbit d i
          else Z.testbit (m_io_addr s) i)) /\
    (forall d, io_write cfg 0xb3 d s = s) /\
    io_read cfg Y 0xb3 s = (Some (io_cart_read_rom cfg (m_io_addr s)), s).
Proof.
  intros cfg Y s. rewrite !io_write_b0, !io_write_b1, !io_write_b2.
  split; [apply io_rom_addr_12345|]. split; [|split].
  - intros d i Ha Hd Hi.
    rewrite io_write_b0, io_write_b1, io_write_b2.
    split; [now apply io_rom_addr_w_0|].
    split; [now apply io_rom_addr_w_1 | now apply io_rom_addr_w_2].
  - intros d. rewrite io_write_b3. reflexivity.
  - reflexivity.
Qed.

Lemma io_rom_address_fragments_witness :
  Z.testbit
    (m_io_addr (io_write pc8500_64k 0xb1 0xa5
                  (set_io_addr 0x3ffff (power_on pc8500_64k)))) 9 = false.
Proof.
  destruct (io_rom_address_fragments pc8500_64k no_key
              (set_io_addr 0x3ffff (power_on pc8500_64k)))
    as (_ & H & _).
  destruct (H 0xa5 9) as (_ & H1 & _).
  - cbn. lia.
  - lia.
  - lia.
  - exact H1.
Defined.

(** ** Low window *)

Ltac run_banking :=
  unfold then_, skip, program_install, membank_set_entry, logerror;
  cbn [program entry errorlog set_program set_entries set_errorlog m_mmr
       set_mmr m_cart_rom].

Ltac solve_windows :=
  cbn [read_handler write_handler]; unfold within; split_comparisons;
  cbn [andb]; first [split; reflexivity | reflexivity | lia].

(** C2, as stated, fails.  With RAM in the low window (MMR 0x04), a write
    of 0x0C to the MMR (low window source 3) leaves that RAM mapped: the
    window still answers reads and writes, a byte written at 0x1000 reads
    back. *)
Lemma low_window_source_3_not_unmapped :
  Z.land (Z.shiftr 0x0c 2) 0x03 = 3 /\
  ~ window_unmapped 0x0000 0x7fff ram_then_invalid /\
  read_handler (program ram_then_invalid) 0x1000 = banked 0x0000 bank1 /\
  write_handler (program ram_then_invalid) 0x1000 = banked 0x0000 bank1 /\
  program_read pc8500_64k (program_write 0x1000 0xaa ram_then_invalid) 0x1000
  = 0xaa.
Proof.
  assert (Hr : read_handler (program ram_then_invalid) 0x1000
               = banked 0x0000 bank1) by (vm_compute; reflexivity).
  split; [reflexivity|]. split; [|split; [exact Hr|split]].
  - intros H. destruct (H 0x1000) as [Hr' _]; [lia|].
    rewrite Hr in Hr'. discriminate Hr'.
  - vm_compute. reflexivity.
  - vm_compute. reflexivity.
Qed.

(** ** Mid window *)

(** What [bankswitch] does for mid window source 3: the test is on
    [m_ram->size()] against 64; above it the window is bank 3 at entry 3,
    read and write; otherwise the window is unmapped. *)
Lemma mid_window_source_3 cfg s data :
  Z.land (Z.shiftr data 4) 0x03 = 3 ->
  if 64 <? ram_size cfg then
    entry (bankswitch cfg data s) bank3 = 3 /\
    (forall a, 0x8000 <= a <= 0xbfff ->
       read_handler (program (bankswitch cfg data s)) a = banked 0x8000 bank3 /\
       write_handler (program (bankswitch cfg data s)) a = banked 0x8000 bank3)
  else
    window_unmapped 0x8000 0xbfff (bankswitch cfg data s).
Proof.
  intros H. unfold window_unmapped, bankswitch. cbv zeta. rewrite H.
  repeat match goal with
         | |- context [match ?x with _ => _ end] => destruct x eqn:?
         end;
    run_banking.
  all: try (split; [reflexivity|]).
  all: intros a Ha; solve_windows.
Qed.

(** Entry 3 of bank 3 is the fourth 16K cell of the RAM device, that is
    the bytes 0xC000..0xFFFF of the base 64K. *)
Lemma bank3_entry_3 s : bank_base s bank3 3 = Some (REGION_RAM, 0xc000).
Proof. reflexivity. Qed.

(** A RAM device of 64K bytes or more always passes the test. *)
Lemma mid_window_source_3_mapped cfg s data :
  ram_default_size <= ram_size cfg ->
  Z.land (Z.shiftr data 4) 0x03 = 3 ->
  ~ window_unmapped 0x8000 0xbfff (bankswitch cfg data s).
Proof.
  intros Hsize H Hun. pose proof (mid_window_source_3 cfg s data H) as Hmid.
  destruct (Z.ltb_spec 64 (ram_size cfg)) as [_ | Hle].
  - destruct Hmid as (_ & Hmap).
    destruct (Hmap 0x8000) as [Hr _]; [lia|].
    destruct (Hun 0x8000) as [Hr' _]; [lia|]. congruence.
  - unfold ram_default_size in Hsize. lia.
Qed.

(** C3, on the machine as configured by default.  The RAM device holds
    64K bytes, no more than the base 64KB, and the MMR is written 0x30 (mid
    window source 3).  The mid window is not left unmapped: it is bank 3 at
    entry 3, read and write, over the bytes 0xC000.. of the base RAM; a
    byte written at 0x8000 lands at RAM offset 0xC000. *)
Theorem ram_cartridge_window_on_64k_machine :
  ram_size pc8500_64k = 64 * 1024 /\
  Z.land (Z.shiftr 0x30 4) 0x03 = 3 /\
  ~ window_unmapped 0x8000 0xbfff ram_cartridge_selected /\
  read_handler (program ram_cartridge_selected) 0x8000 = banked 0x8000 bank3 /\
  write_handler (program ram_cartridge_selected) 0x8000 = banked 0x8000 bank3 /\
  entry ram_cartridge_selected bank3 = 3 /\
  resolve ram_cartridge_selected
    (write_handler (program ram_cartridge_selected) 0x8000) 0x8000
  = Some (REGION_RAM, 0xc000) /\
  ram (program_write 0x8000 0xaa ram_cartridge_selected) 0xc000 = 0xaa /\
  program_read pc8500_64k
    (program_write 0x8000 0xaa ram_cartridge_selected) 0x8000 = 0xaa.
Proof.
  assert (Hr : read_handler (program ram_cartridge_selected) 0x8000
               = banked 0x8000 bank3) by (vm_compute; reflexivity).
  split; [reflexivity|]. split; [reflexivity|].
  split; [|split; [exact Hr|]].
  - intros H. destruct (H 0x8000) as [Hr' _]; [lia|].
    rewrite Hr in Hr'. discriminate Hr'.
  - repeat match goal with |- _ /\ _ => split end; vm_compute; reflexivity.
Qed.

(** With the 96K option the window opens on the same cell: offset 0xC000
    of the RAM device, below the 64K mark, not on the 32K added above it. *)
Lemma ram_cartridge_window_on_96k_machine :
  resolve (mmr_w pc8500_96k 0x30 (power_on pc8500_96k))
    (write_handler (program (mmr_w pc8500_96k 0x30 (power_on pc8500_96k)))
       0x8000) 0x8000
  = Some (REGION_RAM, 0xc000) /\
  0xc000 < ram_default_size.
Proof. split; vm_compute; reflexivity. Qed.

(** ** Start and reset *)

(** C4, as stated, fails.  With a key pending (strobe set, a row byte
    latched) and RAM in the low window, a reset leaves the strobe set, the
    latch as it was and the address space untouched: the low window is
    still RAM, where resolving with value 0 would leave it closed to
    writes. *)
Lemma machine_reset_keeps_strobe_latch_banks :
  ~ reset_clears_keyboard_and_banks pc8500_64k key_pending /\
  m_key_strobe (machine_reset key_pending) = 1 /\
  m_key_latch (machine_reset key_pending) = 0xbf /\
  program (machine_reset key_pending) = program key_pending /\
  resolve (machine_reset key_pending)
    (write_handler (program (machine_reset key_pending)) 0x1000) 0x1000
  = Some (REGION_RAM, 0x1000) /\
  resolve (bankswitch pc8500_64k 0 key_pending)
    (write_handler (program (bankswitch pc8500_64k 0 key_pending)) 0x1000)
    0x1000
  = None.
Proof.
  assert (Hs : m_key_strobe (machine_reset key_pending) = 1)
    by (vm_compute; reflexivity).
  split; [|split; [exact Hs|]].
  - intros (_ & H0 & _). rewrite Hs in H0. discriminate H0.
  - repeat match goal with |- _ /\ _ => split end; vm_compute; reflexivity.
Qed.

(** C4, amended.  Machine reset sets [irq_enabled] to false and leaves the
    rest as it was: the strobe flag, the latched row data, the RTC chip
    select, the stored MMR value, the address space and the bank entries.
    Machine start is what selects the RTC and resolves the banks with
    value 0, without storing to the MMR; at power on, start then reset,
    the keyboard is disabled and idle with the latch at 0. *)
Theorem machine_reset_disables_keyboard_only :
  forall cfg s,
    (m_key_irq_enable (machine_reset s) = false /\
     m_key_strobe (machine_reset s) = m_key_strobe s /\
     m_key_latch (machine_reset s) = m_key_latch s /\
     rtc_cs (machine_reset s) = rtc_cs s /\
     m_mmr (machine_reset s) = m_mmr s /\
     program (machine_reset s) = program s /\
     entry (machine_reset s) = entry s /\
     maincpu (machine_reset s) = maincpu s) /\
    (rtc_cs (machine_start cfg s) = 1 /\
     m_mmr (machine_start cfg s) = m_mmr s /\
     program (machine_start cfg s) = program (bankswitch cfg 0 s) /\
     (forall b, entry (machine_start cfg s) b = 0) /\
     m_key_irq_enable (machine_start cfg s) = m_key_irq_enable s /\
     m_key_strobe (machine_start cfg s) = m_key_strobe s /\
     m_key_latch (machine_start cfg s) = m_key_latch s) /\
    (m_key_irq_enable (power_on cfg) = false /\
     m_key_strobe (power_on cfg) = 0 /\
     m_key_latch (power_on cfg) = 0 /\
     rtc_cs (power_on cfg) = 1 /\
     m_mmr (power_on cfg) = 0 /\
     program (power_on cfg) = program (bankswitch cfg 0 (constructed cfg))).
Proof.
  intros cfg s.
  repeat match goal with |- _ /\ _ => split end;
    try (intros b; destruct b); vm_compute; reflexivity.
Qed.

(** * Further properties of the driver *)

(** ** The windows after bank resolution *)

Lemma land3_cases x :
  Z.land x 3 = 0 \/ Z.land x 3 = 1 \/ Z.land x 3 = 2 \/ Z.land x 3 = 3.
Proof.
  change 3 with (Z.ones 2) at 1 2 3 4. rewrite Z.land_ones by lia.
  pose proof (Z.mod_pos_bound x (2 ^ 2) eq_refl). change (2 ^ 2) with 4 in *. lia.
Qed.

Ltac all_cases :=
  repeat match goal with
         | |- context [match ?x with _ => _ end] => destruct x eqn:?
         end.

Ltac window_cases :=
  run_banking; cbn [read_handler write_handler membank_eqb]; unfold within;
  split_comparisons; cbn [andb]; first [reflexivity | lia].

(** Names the three switches of [bankswitch] in the goal. *)
Ltac bankswitch_parts low mid high :=
  unfold bankswitch; cbv zeta;
  match goal with
  | |- context [(?L ;; ?M ;; ?H) ?s] =>
      change ((L ;; M ;; H) s) with (H (M (L s)));
      set (low := L); set (mid := M); set (high := H)
  end.

(** What the switches of [bankswitch] other than the one of a window do
    to that window: nothing. *)
Ltac other_switch part :=
  let X := fresh "X" in
  intros X; subst part; all_cases; window_cases.

Lemma bankswitch_low_handlers cfg data s a :
  0x0000 <= a <= 0x7fff ->
  handlers_at (bankswitch cfg data s) a =
  match Z.land (Z.shiftr data 2) 0x03 with
  | 0 => if Z.land data 0x03 <? 3 then (banked 0x0000 bank1, unmapped)
         else if m_cart_rom s then (banked 0x0000 bank1, unmapped)
         else (unmapped, unmapped)
  | 1 | 2 => (banked 0x0000 bank1, banked 0x0000 bank1)
  | _ => handlers_at s a
  end.
Proof.
  intros Ha. unfold handlers_at. bankswitch_parts low mid high.
  assert (Hh : forall X,
             (read_handler (program (high X)) a, write_handler (program (high X)) a)
             = (read_handler (program X) a, write_handler (program X) a))
    by other_switch high.
  assert (Hm : forall X,
             (read_handler (program (mid X)) a, write_handler (program (mid X)) a)
             = (read_handler (program X) a, write_handler (program X) a))
    by other_switch mid.
  rewrite Hh, Hm. subst low. all_cases; window_cases.
Qed.

Lemma bankswitch_mid_handlers cfg data s a :
  0x8000 <= a <= 0xbfff ->
  handlers_at (bankswitch cfg data s) a =
  match Z.land (Z.shiftr data 4) 0x03 with
  | 3 => if 64 <? ram_size cfg then (banked 0x8000 bank3, banked 0x8000 bank3)
         else (unmapped, unmapped)
  | _ => (banked 0x8000 bank3, banked 0x8000 bank3)
  end.
Proof.
  intros Ha. unfold handlers_at. bankswitch_parts low mid high.
  assert (Hh : forall X,
             (read_handler (program (high X)) a, write_handler (program (high X)) a)
             = (read_handler (program X) a, write_handler (program X) a))
    by other_switch high.
  rewrite Hh. subst mid.
  pose proof (land3_cases (Z.shiftr data 4)) as Hc.
  all_cases; try (exfalso; lia); window_cases.
Qed.

Lemma bankswitch_high_handlers cfg data s a :
  0xc000 <= a <= 0xe7ff ->
  handlers_at (bankswitch cfg data s) a =
  if BIT data 6 =? 0 then (banked 0xc000 bank4, banked 0xc000 bank4)
  else if a <=? 0xdfff then (banked 0xc000 bank4, banked 0xc000 bank4)
  else (unmapped, unmapped).
Proof.
  intros Ha. unfold handlers_at. bankswitch_parts low mid high.
  subst high. all_cases; window_cases.
Qed.

Lemma bankswitch_top_handlers cfg data s a :
  a < 0x0000 \/ 0xe7ff < a ->
  handlers_at (bankswitch cfg data s) a = handlers_at s a.
Proof.
  intros Ha. unfold handlers_at. bankswitch_parts low mid high.
  assert (Hh : forall X,
             (read_handler (program (high X)) a, write_handler (program (high X)) a)
             = (read_handler (program X) a, write_handler (program X) a))
    by other_switch high.
  assert (Hm : forall X,
             (read_handler (program (mid X)) a, write_handler (program (mid X)) a)
             = (read_handler (program X) a, write_handler (program X) a))
    by other_switch mid.
  rewrite Hh, Hm. subst low. all_cases; window_cases.
Qed.

Ltac entry_cases := run_banking; cbn [membank_eqb]; first [reflexivity | lia].

Ltac other_entry part :=
  let X := fresh "X" in
  intros X; subst part; all_cases; entry_cases.

Lemma bankswitch_bank1_entry cfg data s :
  entry (bankswitch cfg data s) bank1 =
  match Z.land (Z.shiftr data 2) 0x03 with
  | 0 => if Z.land data 0x03 <? 3 then Z.land data 0x03
         else if m_cart_rom s then 6 else entry s bank1
  | 1 => 4
  | 2 => 5
  | _ => entry s bank1
  end.
Proof.
  bankswitch_parts low mid high.
  assert (Hh : forall X, entry (high X) bank1 = entry X bank1)
    by other_entry high.
  assert (Hm : forall X, entry (mid X) bank1 = entry X bank1)
    by other_entry mid.
  rewrite Hh, Hm. subst low. all_cases; entry_cases.
Qed.

Lemma bankswitch_bank3_entry cfg data s :
  entry (bankswitch cfg data s) bank3 =
  if (Z.land (Z.shiftr data 4) 0x03 =? 3) && negb (64 <? ram_size cfg)
  then entry s bank3
  else Z.land (Z.shiftr data 4) 0x03.
Proof.
  bankswitch_parts low mid high.
  assert (Hh : forall X, entry (high X) bank3 = entry X bank3)
    by other_entry high.
  assert (Hl : forall X, entry (low X) bank3 = entry X bank3)
    by other_entry low.
  rewrite Hh. rewrite <- (Hl s). generalize (low s). intros X. subst mid.
  destruct (land3_cases (Z.shiftr data 4)) as [E | [E | [E | E]]]; rewrite E;
    cbn [Z.eqb Pos.eqb andb]; try entry_cases.
  destruct (64 <? ram_size cfg); entry_cases.
Qed.

Lemma bankswitch_bank4_entry cfg data s :
  entry (bankswitch cfg data s) bank4 = if BIT data 6 =? 0 then 0 else 1.
Proof.
  bankswitch_parts low mid high. subst high. all_cases; entry_cases.
Qed.

Lemma bankswitch_bank5_entry cfg data s :
  entry (bankswitch cfg data s) bank5 = entry s bank5.
Proof.
  bankswitch_parts low mid high.
  assert (Hh : forall X, entry (high X) bank5 = entry X bank5)
    by other_entry high.
  assert (Hm : forall X, entry (mid X) bank5 = entry X bank5)
    by other_entry mid.
  rewrite Hh, Hm. subst low. all_cases; entry_cases.
Qed.

Lemma bankswitch_cart_rom cfg data s :
  m_cart_rom (bankswitch cfg data s) = m_cart_rom s.
Proof.
  destruct (bankswitch_frame cfg data s) as (p & e & l & ->); reflexivity.
Qed.

(** The diagnostic is logged for low window source 3 and for nothing
    else. *)
Lemma bankswitch_errorlog cfg data s :
  errorlog (bankswitch cfg data s) =
  match Z.land (Z.shiftr data 2) 0x03 with
  | 3 => ("0x0000-0x7fff = invalid" ++ newline)%string :: errorlog s
  | _ => errorlog s
  end.
Proof.
  bankswitch_parts low mid high.
  assert (Hh : forall X, errorlog (high X) = errorlog X)
    by (intros X; subst high; all_cases; reflexivity).
  assert (Hm : forall X, errorlog (mid X) = errorlog X)
    by (intros X; subst mid; all_cases; reflexivity).
  rewrite Hh, Hm. subst low. all_cases; reflexivity.
Qed.

(** ** Low window source 3 *)

(** C2, amended.  When bank resolution runs on a value whose low window
    source (bits 3:2) is 3, it logs the diagnostic and makes no call for
    the low window: the window answers reads and writes as it did before
    and bank 1 keeps its entry, whatever was installed there.  Resolution
    then goes on as for any other value: the mid window is bank 3 at the
    entry its source selects, read and write (unmapped for source 3 when
    the RAM size test fails), and the high window is bank 4 at entry 0 over
    0xC000..0xE7FF, or at entry 1 over 0xC000..0xDFFF with 0xE000..0xE7FF
    unmapped when bit 6 is set; the condition stops nothing.  An MMR write
    of such a value, when it differs from the stored one, does exactly
    this. *)
Theorem low_window_source_3_left_as_is :
  forall cfg s data,
    Z.land (Z.shiftr data 2) 0x03 = 3 ->
    let s' := bankswitch cfg data s in
    errorlog s' = ("0x0000-0x7fff = invalid" ++ newline)%string :: errorlog s /\
    entry s' bank1 = entry s bank1 /\
    (forall a, 0x0000 <= a <= 0x7fff ->
       read_handler (program s') a = read_handler (program s) a /\
       write_handler (program s') a = write_handler (program s) a) /\
    (forall a, 0xc000 <= a <= 0xdfff ->
       read_handler (program s') a = banked 0xc000 bank4 /\
       write_handler (program s') a = banked 0xc000 bank4) /\
    (data <> m_mmr s -> mmr_w cfg data s = set_mmr data s') /\
    (forall a, 0x8000 <= a <= 0xbfff ->
       handlers_at s' a =
       if (Z.land (Z.shiftr data 4) 0x03 =? 3) && negb (64 <? ram_size cfg)
       then (unmapped, unmapped)
       else (banked 0x8000 bank3, banked 0x8000 bank3)) /\
    entry s' bank3 =
      (if (Z.land (Z.shiftr data 4) 0x03 =? 3) && negb (64 <? ram_size cfg)
       then entry s bank3
       else Z.land (Z.shiftr data 4) 0x03) /\
    (forall a, 0xc000 <= a <= 0xe7ff ->
       handlers_at s' a =
       if BIT data 6 =? 0 then (banked 0xc000 bank4, banked 0xc000 bank4)
       else if a <=? 0xdfff then (banked 0xc000 bank4, banked 0xc000 bank4)
       else (unmapped, unmapped)) /\
    entry s' bank4 = (if BIT data 6 =? 0 then 0 else 1).
Proof.
  intros cfg s data H s'. subst s'.
  assert (Hlog : errorlog (bankswitch cfg data s)
                 = ("0x0000-0x7fff = invalid" ++ newline)%string :: errorlog s)
    by (rewrite bankswitch_errorlog, H; reflexivity).
  split; [exact Hlog|].
  split; [rewrite bankswitch_bank1_entry, H; reflexivity|].
  split.
  { intros a Ha. pose proof (bankswitch_low_handlers cfg data s a Ha) as Hl.
    rewrite H in Hl. injection Hl as Hr Hw. split; assumption. }
  split.
  { intros a Ha.
    pose proof (bankswitch_high_handlers cfg data s a ltac:(lia)) as Hh.
    destruct (Z.leb_spec a 0xdfff) as [_|]; [|lia].
    destruct (BIT data 6 =? 0); injection Hh as Hr Hw; split; assumption. }
  split.
  { intros Hne. unfold mmr_w. apply Z.eqb_neq in Hne. now rewrite Hne. }
  split.
  { intros a Ha. rewrite (bankswitch_mid_handlers cfg data s a Ha).
    destruct (land3_cases (Z.shiftr data 4)) as [E | [E | [E | E]]];
      rewrite E; cbn [Z.eqb Pos.eqb andb]; try reflexivity.
    destruct (64 <? ram_size cfg); reflexivity. }
  split; [apply bankswitch_bank3_entry|].
  split; [intros a Ha; now apply bankswitch_high_handlers|].
  apply bankswitch_bank4_entry.
Qed.

Lemma low_window_source_3_left_as_is_witness :
  read_handler
    (program (bankswitch pc8500_64k 0x0c
                (mmr_w pc8500_64k 0x04 (power_on pc8500_64k)))) 0x1000 =
  read_handler (program (mmr_w pc8500_64k 0x04 (power_on pc8500_64k))) 0x1000.
Proof.
  destruct (low_window_source_3_left_as_is pc8500_64k
              (mmr_w pc8500_64k 0x04 (power_on pc8500_64k)) 0x0c)
    as (_ & _ & H & _).
  - reflexivity.
  - destruct (H 0x1000) as [Hr _]; [lia|]. exact Hr.
Defined.

Lemma read_handler_at s a : read_handler (program s) a = fst (handlers_at s a).
Proof. reflexivity. Qed.

Lemma write_handler_at s a : write_handler (program s) a = snd (handlers_at s a).
Proof. reflexivity. Qed.

Lemma bankswitch_ram cfg data s :
  ram (bankswitch cfg data s) = ram s /\
  crt_ram (bankswitch cfg data s) = crt_ram s.
Proof.
  destruct (bankswitch_frame cfg data s) as (p & e & l & ->). split; reflexivity.
Qed.

Lemma program_read_banked cfg s a lo b r base :
  read_handler (program s) a = banked lo b ->
  bank_base s b (entry s b) = Some (r, base) ->
  program_read cfg s a = region_read cfg s r (base + (a - lo)).
Proof.
  intros Hh Hb. unfold program_read, resolve. now rewrite Hh, Hb.
Qed.

Lemma program_read_unmapped cfg s a :
  read_handler (program s) a = unmapped -> program_read cfg s a = 0xff.
Proof. intros Hh. unfold program_read, resolve. now rewrite Hh. Qed.

Lemma program_write_unmapped s a v :
  write_handler (program s) a = unmapped -> program_write a v s = s.
Proof. intros Hh. unfold program_write, resolve. now rewrite Hh. Qed.

Lemma program_write_ram s a v lo b base :
  write_handler (program s) a = banked lo b ->
  bank_base s b (entry s b) = Some (REGION_RAM, base) ->
  program_write a v s = set_ram (poke (ram s) (base + (a - lo)) v) s.
Proof.
  intros Hh Hb. unfold program_write, resolve. now rewrite Hh, Hb.
Qed.

Lemma program_write_crt_ram s a v lo b base :
  write_handler (program s) a = banked lo b ->
  bank_base s b (entry s b) = Some (REGION_CRT_RAM, base) ->
  program_write a v s = set_crt_ram (poke (crt_ram s) (base + (a - lo)) v) s.
Proof.
  intros Hh Hb. unfold program_write, resolve. now rewrite Hh, Hb.
Qed.

Lemma poke_same m off v : poke m off v off = v.
Proof. unfold poke. now rewrite Z.eqb_refl. Qed.

Lemma poke_other m off v x : x <> off -> poke m off v x = m x.
Proof. intros H. unfold poke. apply Z.eqb_neq in H. now rewrite H. Qed.

(** X1.  Low window source 0 with ROM section 0, 1 or 2: after bank
    resolution every address of the low window reads the internal ROM at
    section * 0x8000 + address, and a write there changes nothing. *)
Theorem low_window_internal_rom :
  forall cfg s data a v,
    Z.land (Z.shiftr data 2) 0x03 = 0 ->
    Z.land data 0x03 < 3 ->
    0x0000 <= a <= 0x7fff ->
    program_read cfg (bankswitch cfg data s) a
      = rom cfg (Z.land data 0x03 * 0x8000 + a) /\
    program_write a v (bankswitch cfg data s) = bankswitch cfg data s.
Proof.
  intros cfg s data a v Hsrc Hrom Ha.
  pose proof (bankswitch_low_handlers cfg data s a Ha) as Hh.
  rewrite Hsrc in Hh. destruct (Z.ltb_spec (Z.land data 3) 3) as [_|]; [|lia].
  pose proof (bankswitch_bank1_entry cfg data s) as He.
  rewrite Hsrc in He. destruct (Z.ltb_spec (Z.land data 3) 3) as [_|]; [|lia].
  injection Hh as Hr Hw. split.
  - rewrite (program_read_banked cfg _ a 0 bank1 REGION_ROM
               (Z.land data 3 * 0x8000)); [|exact Hr|].
    + cbn [region_read]. f_equal. lia.
    + rewrite He. cbn [bank_base].
      pose proof (Z.land_nonneg data 3) as [_ Hn].
      destruct (Z.leb_spec 0 (Z.land data 3)); [|lia].
      destruct (Z.ltb_spec (Z.land data 3) 4); [|lia]. reflexivity.
  - now apply program_write_unmapped.
Qed.

Lemma program_read_back_ram cfg s a v lo b base :
  read_handler (program s) a = banked lo b ->
  write_handler (program s) a = banked lo b ->
  bank_base s b (entry s b) = Some (REGION_RAM, base) ->
  program_read cfg (program_write a v s) a = v.
Proof.
  intros Hr Hw Hb. rewrite (program_write_ram s a v lo b base Hw Hb).
  rewrite (program_read_banked cfg _ a lo b REGION_RAM base).
  - cbn [region_read ram set_ram]. apply poke_same.
  - exact Hr.
  - rewrite <- Hb. destruct b; reflexivity.
Qed.

Lemma program_read_back_crt_ram cfg s a v lo b base :
  read_handler (program s) a = banked lo b ->
  write_handler (program s) a = banked lo b ->
  bank_base s b (entry s b) = Some (REGION_CRT_RAM, base) ->
  program_read cfg (program_write a v s) a = v.
Proof.
  intros Hr Hw Hb. rewrite (program_write_crt_ram s a v lo b base Hw Hb).
  rewrite (program_read_banked cfg _ a lo b REGION_CRT_RAM base).
  - cbn [region_read crt_ram set_crt_ram]. apply poke_same.
  - exact Hr.
  - rewrite <- Hb. destruct b; reflexivity.
Qed.

(** X2.  Low window source 0 with ROM section 3: with a cartridge region
    found at start the low window reads the cartridge from its offset 0;
    without one the window is unmapped and reads 0xff.  Writes change
    nothing in either case. *)
Theorem low_window_rom_cartridge :
  forall cfg s data a v,
    Z.land (Z.shiftr data 2) 0x03 = 0 ->
    Z.land data 0x03 = 3 ->
    0x0000 <= a <= 0x7fff ->
    program_read cfg (bankswitch cfg data s) a
      = (if m_cart_rom s
         then match cart cfg with Some c => c a | None => 0xff end
         else 0xff) /\
    program_write a v (bankswitch cfg data s) = bankswitch cfg data s.
Proof.
  intros cfg s data a v Hsrc Hrom Ha.
  pose proof (bankswitch_low_handlers cfg data s a Ha) as Hh.
  pose proof (bankswitch_bank1_entry cfg data s) as He.
  rewrite Hsrc, Hrom in Hh, He. cbn [Z.ltb Z.compare Pos.compare Pos.compare_cont] in Hh, He.
  destruct (m_cart_rom s) eqn:Hc; injection Hh as Hr Hw.
  - split; [|now apply program_write_unmapped].
    rewrite (program_read_banked cfg _ a 0 bank1 REGION_CART 0);
      [|exact Hr|].
    + cbn [region_read]. replace (0 + (a - 0)) with a by lia. reflexivity.
    + rewrite He. cbn [bank_base]. rewrite bankswitch_cart_rom, Hc. reflexivity.
  - split; [now apply program_read_unmapped | now apply program_write_unmapped].
Qed.

(** X3.  Low window source 1 or 2: the low window is RAM, read and write,
    from RAM offset 0 (source 1) or 0x8000 (source 2).  A read gives the
    RAM byte at that offset plus the address, a write stores there, and a
    byte written is read back. *)
Theorem low_window_ram :
  forall cfg s data a v,
    Z.land (Z.shiftr data 2) 0x03 = 1 \/ Z.land (Z.shiftr data 2) 0x03 = 2 ->
    0x0000 <= a <= 0x7fff ->
    let off := (Z.land (Z.shiftr data 2) 0x03 - 1) * 0x8000 + a in
    let s' := bankswitch cfg data s in
    program_read cfg s' a = ram s off /\
    program_write a v s' = set_ram (poke (ram s) off v) s' /\
    program_read cfg (program_write a v s') a = v.
Proof.
  intros cfg s data a v Hsrc Ha off s'. subst off s'.
  pose proof (bankswitch_low_handlers cfg data s a Ha) as Hh.
  pose proof (bankswitch_bank1_entry cfg data s) as He.
  destruct (bankswitch_ram cfg data s) as [Hram _].
  destruct Hsrc as [Hsrc | Hsrc]; rewrite Hsrc in *; injection Hh as Hr Hw.
  - assert (Hb : bank_base (bankswitch cfg data s) bank1
                   (entry (bankswitch cfg data s) bank1)
                 = Some (REGION_RAM, 0)) by (rewrite He; reflexivity).
    split; [|split].
    + rewrite (program_read_banked cfg _ a 0 bank1 REGION_RAM 0 Hr Hb).
      cbn [region_read]. rewrite Hram. f_equal. lia.
    + rewrite (program_write_ram _ a v 0 bank1 0 Hw Hb). rewrite Hram.
      do 2 f_equal. lia.
    + exact (program_read_back_ram cfg _ a v 0 bank1 0 Hr Hw Hb).
  - assert (Hb : bank_base (bankswitch cfg data s) bank1
                   (entry (bankswitch cfg data s) bank1)
                 = Some (REGION_RAM, 0x8000)) by (rewrite He; reflexivity).
    split; [|split].
    + rewrite (program_read_banked cfg _ a 0 bank1 REGION_RAM 0x8000 Hr Hb).
      cbn [region_read]. rewrite Hram. f_equal. lia.
    + rewrite (program_write_ram _ a v 0 bank1 0x8000 Hw Hb). rewrite Hram.
      do 2 f_equal. lia.
    + exact (program_read_back_ram cfg _ a v 0 bank1 0x8000 Hr Hw Hb).
Qed.

(** X4.  Mid window source k: cell k of the RAM device, 16K each, read and
    write; for k = 3 provided the RAM size test passes.  A read gives the
    RAM byte at k * 0x4000 + (address - 0x8000), a write stores there, and
    a byte written is read back. *)
Theorem mid_window_ram_cell :
  forall cfg s data a v,
    Z.land (Z.shiftr data 4) 0x03 < 3 \/ 64 < ram_size cfg ->
    0x8000 <= a <= 0xbfff ->
    let off := Z.land (Z.shiftr data 4) 0x03 * 0x4000 + (a - 0x8000) in
    let s' := bankswitch cfg data s in
    program_read cfg s' a = ram s off /\
    program_write a v s' = set_ram (poke (ram s) off v) s' /\
    program_read cfg (program_write a v s') a = v.
Proof.
  intros cfg s data a v Hsrc Ha off s'. subst off s'.
  pose proof (bankswitch_mid_handlers cfg data s a Ha) as Hh.
  pose proof (bankswitch_bank3_entry cfg data s) as He.
  destruct (bankswitch_ram cfg data s) as [Hram _].
  set (k := Z.land (Z.shiftr data 4) 3) in *.
  assert (Hk : k = 0 \/ k = 1 \/ k = 2 \/ k = 3) by apply land3_cases.
  assert (Hh' : handlers_at (bankswitch cfg data s) a
                = (banked 0x8000 bank3, banked 0x8000 bank3)).
  { destruct Hk as [E | [E | [E | E]]]; rewrite E in Hh; try exact Hh.
    destruct (Z.ltb_spec 64 (ram_size cfg)); [exact Hh | lia]. }
  assert (He' : entry (bankswitch cfg data s) bank3 = k).
  { destruct (Z.eqb_spec k 3) as [E | E]; cbn [andb] in He; [|exact He].
    destruct (Z.ltb_spec 64 (ram_size cfg)); [exact He | lia]. }
  injection Hh' as Hr Hw.
  assert (Hb : bank_base (bankswitch cfg data s) bank3
                 (entry (bankswitch cfg data s) bank3)
               = Some (REGION_RAM, k * 0x4000)).
  { rewrite He'. cbn [bank_base].
    destruct (Z.leb_spec 0 k); [|lia]. destruct (Z.ltb_spec k 5); [|lia].
    reflexivity. }
  split; [|split].
  - rewrite (program_read_banked cfg _ a 0x8000 bank3 REGION_RAM _ Hr Hb).
    cbn [region_read]. now rewrite Hram.
  - rewrite (program_write_ram _ a v 0x8000 bank3 _ Hw Hb). now rewrite Hram.
  - exact (program_read_back_ram cfg _ a v 0x8000 bank3 _ Hr Hw Hb).
Qed.

(** X5.  High window.  With bit 6 of the value clear, 0xC000..0xE7FF is
    RAM at the same offsets, read and write.  With bit 6 set,
    0xC000..0xDFFF is the CRT video RAM from its offset 0, read and write,
    and 0xE000..0xE7FF is unmapped: reads give 0xff, writes change
    nothing. *)
Theorem high_window_ram_or_video :
  forall cfg s data a v,
    0xc000 <= a <= 0xe7ff ->
    let s' := bankswitch cfg data s in
    if BIT data 6 =? 0 then
      program_read cfg s' a = ram s a /\
      program_write a v s' = set_ram (poke (ram s) a v) s' /\
      program_read cfg (program_write a v s') a = v
    else if a <=? 0xdfff then
      program_read cfg s' a = crt_ram s (a - 0xc000) /\
      program_write a v s' = set_crt_ram (poke (crt_ram s) (a - 0xc000) v) s' /\
      program_read cfg (program_write a v s') a = v
    else
      program_read cfg s' a = 0xff /\
      program_write a v s' = s'.
Proof.
  intros cfg s data a v Ha s'. subst s'.
  pose proof (bankswitch_high_handlers cfg data s a Ha) as Hh.
  pose proof (bankswitch_bank4_entry cfg data s) as He.
  destruct (bankswitch_ram cfg data s) as [Hram Hcrt].
  destruct (BIT data 6 =? 0).
  - injection Hh as Hr Hw.
    assert (Hb : bank_base (bankswitch cfg data s) bank4
                   (entry (bankswitch cfg data s) bank4)
                 = Some (REGION_RAM, 0xc000)) by (rewrite He; reflexivity).
    split; [|split].
    + rewrite (program_read_banked cfg _ a 0xc000 bank4 REGION_RAM _ Hr Hb).
      cbn [region_read]. rewrite Hram. f_equal. lia.
    + rewrite (program_write_ram _ a v 0xc000 bank4 _ Hw Hb). rewrite Hram.
      do 2 f_equal. lia.
    + exact (program_read_back_ram cfg _ a v 0xc000 bank4 _ Hr Hw Hb).
  - destruct (a <=? 0xdfff); injection Hh as Hr Hw.
    + assert (Hb : bank_base (bankswitch cfg data s) bank4
                     (entry (bankswitch cfg data s) bank4)
                   = Some (REGION_CRT_RAM, 0)) by (rewrite He; reflexivity).
      split; [|split].
      * rewrite (program_read_banked cfg _ a 0xc000 bank4 REGION_CRT_RAM _ Hr Hb).
        cbn [region_read]. now rewrite Hcrt.
      * rewrite (program_write_crt_ram _ a v 0xc000 bank4 _ Hw Hb).
        now rewrite Hcrt.
      * exact (program_read_back_crt_ram cfg _ a v 0xc000 bank4 _ Hr Hw Hb).
    + split; [now apply program_read_unmapped | now apply program_write_unmapped].
Qed.

(** ** The memory map in reachable states *)

Lemma address_cases a :
  (a < 0x0000 \/ 0xe7ff < a) \/ 0x0000 <= a <= 0x7fff \/
  0x8000 <= a <= 0xbfff \/ 0xc000 <= a <= 0xe7ff.
Proof. lia. Qed.

(** Bank resolution reads the state through the address space, the bank
    entries and the cartridge flag only. *)
Lemma bankswitch_handlers_ext cfg d s1 s2 a :
  program s1 = program s2 -> m_cart_rom s1 = m_cart_rom s2 ->
  handlers_at (bankswitch cfg d s1) a = handlers_at (bankswitch cfg d s2) a.
Proof.
  intros Hp Hc.
  assert (Hs : handlers_at s1 a = handlers_at s2 a)
    by (unfold handlers_at; now rewrite Hp).
  destruct (address_cases a) as [Ha | [Ha | [Ha | Ha]]].
  - now rewrite !bankswitch_top_handlers.
  - now rewrite !bankswitch_low_handlers, Hc, Hs.
  - now rewrite !bankswitch_mid_handlers.
  - now rewrite !bankswitch_high_handlers.
Qed.

Lemma bankswitch_entry_ext cfg d s1 s2 b :
  entry s1 b = entry s2 b -> m_cart_rom s1 = m_cart_rom s2 ->
  entry (bankswitch cfg d s1) b = entry (bankswitch cfg d s2) b.
Proof.
  intros He Hc. destruct b.
  - now rewrite !bankswitch_bank1_entry, Hc, He.
  - now rewrite !bankswitch_bank3_entry, He.
  - now rewrite !bankswitch_bank4_entry.
  - now rewrite !bankswitch_bank5_entry.
Qed.

(** Resolving twice with the same value is resolving once. *)
Lemma bankswitch_handlers_idem cfg d s a :
  handlers_at (bankswitch cfg d (bankswitch cfg d s)) a
  = handlers_at (bankswitch cfg d s) a.
Proof.
  destruct (address_cases a) as [Ha | [Ha | [Ha | Ha]]].
  - now rewrite bankswitch_top_handlers.
  - rewrite (bankswitch_low_handlers cfg d (bankswitch cfg d s)) by assumption.
    rewrite bankswitch_cart_rom.
    destruct (land3_cases (Z.shiftr d 2)) as [E | [E | [E | E]]];
      rewrite ?E; try reflexivity;
      rewrite (bankswitch_low_handlers cfg d s) by assumption;
      now rewrite E.
  - now rewrite !bankswitch_mid_handlers.
  - now rewrite !bankswitch_high_handlers.
Qed.

Lemma bankswitch_entry_idem cfg d s b :
  entry (bankswitch cfg d (bankswitch cfg d s)) b
  = entry (bankswitch cfg d s) b.
Proof.
  destruct b.
  - rewrite (bankswitch_bank1_entry cfg d (bankswitch cfg d s)).
    rewrite bankswitch_cart_rom.
    destruct (land3_cases (Z.shiftr d 2)) as [E | [E | [E | E]]];
      rewrite ?E; try reflexivity;
      rewrite (bankswitch_bank1_entry cfg d s), E; try reflexivity.
    destruct (Z.land d 3 <? 3); [reflexivity|].
    destruct (m_cart_rom s); reflexivity.
  - rewrite (bankswitch_bank3_entry cfg d (bankswitch cfg d s)).
    destruct ((Z.land (Z.shiftr d 4) 3 =? 3) && negb (64 <? ram_size cfg)) eqn:E;
      [reflexivity|].
    rewrite (bankswitch_bank3_entry cfg d s), E. reflexivity.
  - now rewrite !bankswitch_bank4_entry.
  - now rewrite bankswitch_bank5_entry.
Qed.

(** The state a reachable state was stepped to: either the banking is as
    before, or the step was an MMR write of another value. *)
Lemma step_banking cfg e s :
  (program (step cfg e s) = program s /\
   entry (step cfg e s) = entry s /\
   m_cart_rom (step cfg e s) = m_cart_rom s /\
   m_mmr (step cfg e s) = m_mmr s) \/
  (exists d, d <> m_mmr s /\ step cfg e s = set_mmr d (bankswitch cfg d s)).
Proof.
  destruct e as [port data|a v|Y|]; cbn [step].
  - unfold io_write, skip.
    repeat match goal with
           | |- context [if ?c then _ else _] => destruct c
           end; try (left; repeat split; fail).
    + unfold mmr_w. destruct (Z.eqb_spec (u8 data) (m_mmr s)) as [E | E];
        cbn [negb].
      * left. rewrite E. now rewrite set_mmr_same.
      * right. exists (u8 data). split; [exact E | reflexivity].
    + left. unfold port71_w, then_, skip.
      destruct ((u8 data =? 0x18) && (m_key_latch s =? 0x10)); repeat split.
    + left. unfold io_rom_addr_w.
      repeat match goal with
             | |- context [match ?x with _ => _ end] => destruct x
             end; repeat split.
  - left. unfold program_write.
    destruct (resolve s (write_handler (program s) a) a) as [[[] off]|];
      repeat split.
  - left. unfold keyboard_tick.
    destruct (m_key_irq_enable s) eqn:Hen.
    + destruct (all_idle Y) eqn:Hidle.
      * rewrite scan_keyboard_idle by assumption. repeat split.
      * rewrite scan_keyboard_key by assumption.
        destruct (m_key_strobe s =? 0); repeat split.
    + rewrite scan_keyboard_disabled by assumption. repeat split.
  - left. repeat split.
Qed.

Lemma banking_settled_after cfg d s :
  m_cart_rom s = cart_present cfg ->
  (forall a, 0xe800 <= a <= 0xffff ->
     handlers_at s a = (banked 0xe800 bank5, banked 0xe800 bank5)) ->
  entry s bank5 = 0 ->
  banking_settled cfg (set_mmr d (bankswitch cfg d s)).
Proof.
  intros Hc Ht He. unfold banking_settled. cbn [m_mmr set_mmr m_cart_rom entry].
  split; [now rewrite bankswitch_cart_rom|].
  split; [|split; [|split]].
  - intros a Ha.
    change (handlers_at (set_mmr d (bankswitch cfg d s)) a)
      with (handlers_at (bankswitch cfg d s) a).
    rewrite bankswitch_top_handlers by lia. now apply Ht.
  - now rewrite bankswitch_bank5_entry.
  - intros a.
    change (handlers_at (set_mmr d (bankswitch cfg d s)) a)
      with (handlers_at (bankswitch cfg d s) a).
    rewrite <- (bankswitch_handlers_idem cfg d s a).
    apply bankswitch_handlers_ext; reflexivity.
  - intros b. rewrite <- (bankswitch_entry_idem cfg d s b).
    apply bankswitch_entry_ext; reflexivity.
Qed.

Lemma banking_settled_ext cfg s1 s2 :
  program s1 = program s2 -> entry s1 = entry s2 ->
  m_cart_rom s1 = m_cart_rom s2 -> m_mmr s1 = m_mmr s2 ->
  banking_settled cfg s1 -> banking_settled cfg s2.
Proof.
  intros Ep Ee Ec Em (Hc & Ht & He & Hh & Hb).
  assert (Hsame : forall a, handlers_at s2 a = handlers_at s1 a)
    by (intros a; unfold handlers_at; now rewrite Ep).
  unfold banking_settled. rewrite <- Ec, <- Em, <- Ee.
  split; [exact Hc|]. split; [|split; [exact He|split]].
  - intros a Ha. rewrite Hsame. now apply Ht.
  - intros a. rewrite Hsame, <- Hh.
    apply bankswitch_handlers_ext; now symmetry.
  - intros b. rewrite <- Hb.
    apply bankswitch_entry_ext; [now rewrite Ee | now symmetry].
Qed.

Lemma banking_settled_power_on cfg : banking_settled cfg (power_on cfg).
Proof.
  apply (banking_settled_ext cfg
           (set_mmr 0
              (bankswitch cfg 0
                 ((set_cart_rom (cart_present cfg) ;; set_rtc_cs 1 ;;
                   membank_set_entry bank1 0 ;; membank_set_entry bank3 0 ;;
                   membank_set_entry bank4 0 ;; membank_set_entry bank5 0)
                    (constructed cfg))))).
  - vm_compute. reflexivity.
  - vm_compute. reflexivity.
  - vm_compute. reflexivity.
  - vm_compute. reflexivity.
  - apply banking_settled_after.
    + vm_compute. reflexivity.
    + intros a Ha. unfold handlers_at, then_.
      cbn [program constructed set_cart_rom set_rtc_cs membank_set_entry
           set_entries read_handler write_handler].
      unfold within. split_comparisons; cbn [andb]; first [reflexivity | lia].
    + vm_compute. reflexivity.
Qed.

Lemma banking_settled_step cfg e s :
  banking_settled cfg s -> banking_settled cfg (step cfg e s).
Proof.
  intros H.
  destruct (step_banking cfg e s) as [(Ep & Ee & Ec & Em) | (d & _ & ->)].
  - apply (banking_settled_ext cfg s); auto.
  - destruct H as (Hc & Ht & He & _). now apply banking_settled_after.
Qed.

Lemma reachable_banking_settled cfg s :
  reachable cfg s -> banking_settled cfg s.
Proof.
  intros [es ->]. pose proof (banking_settled_power_on cfg) as H.
  revert H. generalize (power_on cfg). unfold run.
  induction es as [|e es IH]; intros s H; [exact H|].
  cbn [fold_left]. apply IH. now apply banking_settled_step.
Qed.

Lemma resolve_banked_ext s1 s2 lo b a :
  entry s1 b = entry s2 b -> m_cart_rom s1 = m_cart_rom s2 ->
  resolve s1 (banked lo b) a = resolve s2 (banked lo b) a.
Proof.
  intros He Hc. unfold resolve, bank_base. now rewrite He, Hc.
Qed.

Lemma resolve_ext s1 s2 h a :
  (forall b, entry s1 b = entry s2 b) -> m_cart_rom s1 = m_cart_rom s2 ->
  resolve s1 h a = resolve s2 h a.
Proof.
  intros He Hc. destruct h as [|lo b]; [reflexivity|].
  now apply resolve_banked_ext.
Qed.

Lemma mapping_at_ext s1 s2 a :
  handlers_at s1 a = handlers_at s2 a ->
  (forall b, entry s1 b = entry s2 b) -> m_cart_rom s1 = m_cart_rom s2 ->
  mapping_at s1 a = mapping_at s2 a.
Proof.
  intros Hh He Hc. unfold mapping_at.
  rewrite !read_handler_at, !write_handler_at, Hh.
  f_equal; now apply resolve_ext.
Qed.

(** In a reachable state, resolving again with the stored value changes
    nothing of the memory map. *)
Lemma reachable_mapping_settled cfg s a :
  reachable cfg s ->
  mapping_at (bankswitch cfg (m_mmr s) s) a = mapping_at s a.
Proof.
  intros Hs. destruct (reachable_banking_settled cfg s Hs) as (_ & _ & _ & Hh & Hb).
  apply mapping_at_ext; [apply Hh | apply Hb | apply bankswitch_cart_rom].
Qed.

(** X7.  The test in [mmr_w] that skips bank resolution never shows: in
    every reachable state, after a write of any value to the MMR, each
    address resolves, for reading and for writing, as it does after bank
    resolution on that value. *)
Theorem mmr_w_maps_as_bankswitch :
  forall cfg s d a,
    reachable cfg s ->
    mapping_at (mmr_w cfg d s) a = mapping_at (bankswitch cfg d s) a.
Proof.
  intros cfg s d a Hs. unfold mmr_w.
  destruct (Z.eqb_spec d (m_mmr s)) as [-> | Hne]; cbn [negb].
  - rewrite set_mmr_same. symmetry. now apply reachable_mapping_settled.
  - apply mapping_at_ext; reflexivity.
Qed.

(** X6.  The top window: in every reachable state the addresses
    0xE800..0xFFFF are RAM at the same offsets, read and write, whatever
    was written to the MMR; a byte written there is read back. *)
Theorem top_window_fixed_ram :
  forall cfg s a v,
    reachable cfg s ->
    0xe800 <= a <= 0xffff ->
    program_read cfg s a = ram s a /\
    program_write a v s = set_ram (poke (ram s) a v) s /\
    program_read cfg (program_write a v s) a = v.
Proof.
  intros cfg s a v Hs Ha.
  destruct (reachable_banking_settled cfg s Hs) as (_ & Ht & He & _).
  specialize (Ht a Ha). injection Ht as Hr Hw.
  assert (Hb : bank_base s bank5 (entry s bank5) = Some (REGION_RAM, 0xe800))
    by (rewrite He; reflexivity).
  split; [|split].
  - rewrite (program_read_banked cfg s a 0xe800 bank5 REGION_RAM _ Hr Hb).
    cbn [region_read]. f_equal. lia.
  - rewrite (program_write_ram s a v 0xe800 bank5 _ Hw Hb). do 2 f_equal. lia.
  - exact (program_read_back_ram cfg s a v 0xe800 bank5 _ Hr Hw Hb).
Qed.

(** Bank resolution on one value from two states with the same cartridge
    flag gives the same map on the three switched windows, the low window
    under source 3 apart. *)
Lemma bankswitch_mapping_determined cfg d s1 s2 a :
  m_cart_rom s1 = m_cart_rom s2 ->
  (0x0000 <= a <= 0x7fff /\ Z.land (Z.shiftr d 2) 0x03 <> 3) \/
  0x8000 <= a <= 0xe7ff ->
  mapping_at (bankswitch cfg d s1) a = mapping_at (bankswitch cfg d s2) a.
Proof.
  intros Hc Ha. unfold mapping_at. rewrite !read_handler_at, !write_handler_at.
  assert (Hc' : m_cart_rom (bankswitch cfg d s1) = m_cart_rom (bankswitch cfg d s2))
    by now rewrite !bankswitch_cart_rom.
  destruct Ha as [[Ha Hsrc] | Ha].
  - rewrite !bankswitch_low_handlers by assumption.
    assert (He : Z.land (Z.shiftr d 2) 3 = 0 /\ (Z.land d 3 <? 3) = false /\
                 m_cart_rom s2 = false \/
                 entry (bankswitch cfg d s1) bank1
                 = entry (bankswitch cfg d s2) bank1).
    { rewrite !bankswitch_bank1_entry, Hc.
      destruct (land3_cases (Z.shiftr d 2)) as [E | [E | [E | E]]];
        rewrite E; auto; [|contradiction].
      destruct (Z.land d 3 <? 3); auto. destruct (m_cart_rom s2); auto. }
    rewrite Hc. destruct He as [(E & Eb & Ec) | He].
    + rewrite E, Eb, Ec. reflexivity.
    + destruct (land3_cases (Z.shiftr d 2)) as [E | [E | [E | E]]];
        rewrite E; [| | |contradiction];
        repeat match goal with
               | |- context [if ?c then _ else _] => destruct c
               end; cbn [fst snd];
        f_equal; first [reflexivity | now apply resolve_banked_ext].
  - assert (Hw : 0x8000 <= a <= 0xbfff \/ 0xc000 <= a <= 0xe7ff) by lia.
    destruct Hw as [Hm | Hh].
    + rewrite !bankswitch_mid_handlers by assumption.
      pose proof (bankswitch_bank3_entry cfg d s1) as E1.
      pose proof (bankswitch_bank3_entry cfg d s2) as E2.
      destruct (land3_cases (Z.shiftr d 4)) as [E | [E | [E | E]]];
        rewrite E in *; cbn [Z.eqb Pos.eqb andb] in E1, E2;
        try (cbn [fst snd]; f_equal; apply resolve_banked_ext; congruence).
      destruct (64 <? ram_size cfg); cbn [negb] in E1, E2; cbn [fst snd];
        [f_equal; apply resolve_banked_ext; congruence | reflexivity].
    + rewrite !bankswitch_high_handlers by assumption.
      assert (He : entry (bankswitch cfg d s1) bank4
                   = entry (bankswitch cfg d s2) bank4)
        by now rewrite !bankswitch_bank4_entry.
      repeat match goal with
             | |- context [if ?c then _ else _] => destruct c
             end; cbn [fst snd];
        f_equal; first [reflexivity | now apply resolve_banked_ext].
Qed.

(** X8.  The memory map of a reachable state is a function of the stored
    MMR value: two reachable states of one machine with the same MMR value
    resolve every address of 0x8000..0xFFFF alike, and every address of the
    low window too unless the low window source is 3. *)
Theorem mapping_function_of_mmr :
  forall cfg s1 s2 a,
    reachable cfg s1 -> reachable cfg s2 ->
    m_mmr s1 = m_mmr s2 ->
    (0x0000 <= a <= 0x7fff /\ Z.land (Z.shiftr (m_mmr s1) 2) 0x03 <> 3) \/
    0x8000 <= a <= 0xffff ->
    mapping_at s1 a = mapping_at s2 a.
Proof.
  intros cfg s1 s2 a H1 H2 Em Ha.
  destruct (reachable_banking_settled cfg s1 H1) as (Hc1 & Ht1 & He1 & _).
  destruct (reachable_banking_settled cfg s2 H2) as (Hc2 & Ht2 & He2 & _).
  assert (Hw : (0x0000 <= a <= 0x7fff /\ Z.land (Z.shiftr (m_mmr s1) 2) 3 <> 3)
               \/ 0x8000 <= a <= 0xe7ff \/ 0xe800 <= a <= 0xffff) by lia.
  destruct Hw as [Hw | [Hw | Hw]].
  - rewrite <- (reachable_mapping_settled cfg s1 a H1).
    rewrite <- (reachable_mapping_settled cfg s2 a H2). rewrite <- Em.
    apply bankswitch_mapping_determined; [congruence | now left].
  - rewrite <- (reachable_mapping_settled cfg s1 a H1).
    rewrite <- (reachable_mapping_settled cfg s2 a H2). rewrite <- Em.
    apply bankswitch_mapping_determined; [congruence | now right].
  - unfold mapping_at. rewrite !read_handler_at, !write_handler_at.
    rewrite (Ht1 a Hw), (Ht2 a Hw). cbn [fst snd].
    f_equal; apply resolve_banked_ext; congruence.
Qed.

(** ** More on the keyboard *)

Lemma io_write_70 cfg d : io_write cfg 0x70 d = port70_w d.
Proof. reflexivity. Qed.

(** X9.  A write to port 0x70 clears the strobe and nothing else: the
    latch and the CPU line stay as they are, and the status reads 0x10.  It
    arms the edge again: with the scan enabled, the next tick that finds a
    key down asserts IRQ0 with vector 0xEF and the status reads 0x11. *)
Theorem port70_write_rearms_irq :
  forall cfg s d Y,
    m_key_irq_enable s = true ->
    all_idle Y = false ->
    let s1 := io_write cfg 0x70 d s in
    port70_r s1 = 0x10 /\
    m_key_latch s1 = m_key_latch s /\
    maincpu s1 = maincpu s /\
    maincpu (keyboard_tick Y s1) =
      set_input_line_and_vector INPUT_LINE_IRQ0 ASSERT_LINE 0xef :: maincpu s /\
    port70_r (keyboard_tick Y s1) = 0x11.
Proof.
  intros cfg s d Y Hen Hkey s1. subst s1. rewrite io_write_70.
  split; [reflexivity|]. split; [reflexivity|]. split; [reflexivity|].
  unfold keyboard_tick.
  rewrite (scan_keyboard_key Y (port70_w d s)) by assumption.
  split; reflexivity.
Qed.

Lemma mmr_w_frame cfg d s :
  m_key_strobe (mmr_w cfg d s) = m_key_strobe s /\
  m_key_latch (mmr_w cfg d s) = m_key_latch s /\
  m_key_irq_enable (mmr_w cfg d s) = m_key_irq_enable s /\
  m_io_addr (mmr_w cfg d s) = m_io_addr s /\
  m_cart_rom (mmr_w cfg d s) = m_cart_rom s /\
  ram (mmr_w cfg d s) = ram s /\
  crt_ram (mmr_w cfg d s) = crt_ram s /\
  maincpu (mmr_w cfg d s) = maincpu s /\
  rtc_cs (mmr_w cfg d s) = rtc_cs s.
Proof.
  unfold mmr_w. destruct (negb (d =? m_mmr s)).
  - destruct (bankswitch_frame cfg d s) as (p & e & l & ->).
    repeat match goal with |- _ /\ _ => split end; reflexivity.
  - repeat match goal with |- _ /\ _ => split end; reflexivity.
Qed.

Lemma io_rom_addr_w_frame offset d s :
  io_rom_addr_w offset d s
  = set_io_addr (m_io_addr (io_rom_addr_w offset d s)) s.
Proof.
  unfold io_rom_addr_w.
  repeat match goal with
         | |- context [match ?x with _ => _ end] => destruct x
         end; first [reflexivity | now destruct s].
Qed.

(** X10.  While the scan is disabled, the one event that enables it is a
    write to port 0x71 of the byte 0x18 made when the latch holds 0x10. *)
Theorem scan_enabled_only_by_sequence :
  forall cfg e s,
    m_key_irq_enable s = false ->
    (m_key_irq_enable (step cfg e s) = true <->
     exists port data,
       e = ev_io_write port data /\ Z.land port 0xff = 0x71 /\
       u8 data = 0x18 /\ m_key_latch s = 0x10).
Proof.
  intros cfg e s Hdis. split.
  - intros Hen. destruct e as [port data|a v|Y|]; cbn [step] in Hen.
    + exists port, data. split; [reflexivity|].
      unfold io_write, skip in Hen.
      destruct (Z.eqb_spec (Z.land port 0xff) 0x30).
      { destruct (mmr_w_frame cfg (u8 data) s) as (_ & _ & E & _). congruence. }
      destruct (Z.eqb_spec (Z.land port 0xff) 0x70).
      { cbn in Hen. congruence. }
      destruct (Z.eqb_spec (Z.land port 0xff) 0x71) as [E71 | ].
      * split; [exact E71|]. unfold port71_w, then_, skip in Hen.
        destruct (Z.eqb_spec (u8 data) 0x18);
          destruct (Z.eqb_spec (m_key_latch s) 0x10); cbn [andb] in Hen;
          first [now split | (cbn in Hen; congruence)].
      * destruct ((0xb0 <=? Z.land port 0xff) && (Z.land port 0xff <=? 0xb3)).
        -- rewrite io_rom_addr_w_frame in Hen. cbn in Hen. congruence.
        -- congruence.
    + unfold program_write in Hen.
      destruct (resolve s (write_handler (program s) a) a) as [[[] off]|];
        cbn in Hen; congruence.
    + unfold keyboard_tick in Hen.
      rewrite scan_keyboard_disabled in Hen by assumption. congruence.
    + discriminate Hen.
  - intros (port & data & -> & Eport & Edata & Elatch). cbn [step].
    unfold io_write. rewrite Eport. cbn [Z.eqb Pos.eqb].
    unfold port71_w, then_, skip. rewrite Edata, Elatch. reflexivity.
Qed.

(** X11.  Once set, the strobe stays set through every event other than a
    write to port 0x70, a reset included; once enabled, the scan stays
    enabled through every event other than a reset. *)
Theorem strobe_and_enable_are_sticky :
  forall cfg e s,
    (m_key_strobe s = 1 ->
     (forall port data, e = ev_io_write port data -> Z.land port 0xff <> 0x70) ->
     m_key_strobe (step cfg e s) = 1) /\
    (m_key_irq_enable s = true ->
     e <> ev_reset ->
     m_key_irq_enable (step cfg e s) = true).
Proof.
  intros cfg e s. split.
  - intros Hst Hport. destruct e as [port data|a v|Y|]; cbn [step].
    + specialize (Hport port data eq_refl). unfold io_write, skip.
      destruct (Z.eqb_spec (Z.land port 0xff) 0x30).
      { now rewrite mmr_w_key_strobe. }
      destruct (Z.eqb_spec (Z.land port 0xff) 0x70); [contradiction|].
      destruct (Z.land port 0xff =? 0x71).
      { now rewrite port71_w_key_strobe. }
      destruct ((0xb0 <=? Z.land port 0xff) && (Z.land port 0xff <=? 0xb3));
        [now rewrite io_rom_addr_w_key_strobe | assumption].
    + now rewrite program_write_key_strobe.
    + now destruct (scan_keyboard_strobed Y s Hst).
    + exact Hst.
  - intros Hen Hne. destruct e as [port data|a v|Y|]; cbn [step].
    + unfold io_write, skip.
      repeat match goal with
             | |- context [if ?c then _ else _] => destruct c
             end; try assumption.
      * destruct (mmr_w_frame cfg (u8 data) s) as (_ & _ & -> & _). exact Hen.
      * unfold port71_w, then_, skip.
        destruct ((u8 data =? 0x18) && (m_key_latch s =? 0x10));
          first [exact Hen | reflexivity].
      * rewrite io_rom_addr_w_frame. exact Hen.
    + unfold program_write.
      destruct (resolve s (write_handler (program s) a) a) as [[[] off]|];
        assumption.
    + unfold keyboard_tick. destruct (all_idle Y) eqn:Hidle.
      * now rewrite scan_keyboard_idle.
      * rewrite scan_keyboard_key by assumption.
        destruct (m_key_strobe s =? 0); assumption.
    + contradiction.
Qed.

(** ** More on the I/O ROM address *)

(** X12.  From any address, writing d0 at offset 0, then d1 at offset 1,
    then d2 at offset 2 (d1 and d2 bytes) leaves the address at
    (d0 & 3) << 16 | d1 << 8 | d2. *)
Theorem io_rom_addr_after_three_writes :
  forall s d0 d1 d2,
    0 <= d1 < 256 -> 0 <= d2 < 256 ->
    m_io_addr (io_rom_addr_w 2 d2 (io_rom_addr_w 1 d1 (io_rom_addr_w 0 d0 s)))
    = Z.lor (Z.shiftl (Z.land d0 0x03) 16) (Z.lor (Z.shiftl d1 8) d2).
Proof.
  intros s d0 d1 d2 H1 H2. cbn [io_rom_addr_w m_io_addr set_io_addr].
  apply Z.bits_inj'. intros i Hi.
  change 0x03 with (Z.ones 2). change 0xffff with (Z.ones 16).
  change 0x300ff with (Z.lor (Z.shiftl (Z.ones 2) 16) (Z.ones 8)).
  change 0x3ff00 with (Z.shiftl (Z.ones 10) 8).
  repeat first [ rewrite Z.lor_spec | rewrite Z.land_spec
               | rewrite Z.shiftl_spec by assumption ].
  rewrite !Z.testbit_ones by lia.
  rewrite (testbit_fits 8 d2 i) by lia.
  destruct (Z.lt_ge_cases i 8) as [Hlo | Hhi].
  - rewrite (Z.testbit_neg_r d1 (i - 8)) by lia.
    rewrite (Z.testbit_neg_r d0 (i - 16)) by lia.
    split_comparisons; close_bits.
  - rewrite (testbit_fits 8 d1 (i - 8)) by lia.
    split_comparisons; close_bits.
Qed.

Lemma io_addr_ext s1 s2 :
  set_io_addr 0 s1 = set_io_addr 0 s2 -> m_io_addr s1 = m_io_addr s2 -> s1 = s2.
Proof.
  destruct s1, s2. unfold set_io_addr. cbn. intros H E.
  injection H as -> -> -> -> -> -> -> -> -> -> -> ->. now rewrite E.
Qed.

Lemma io_rom_addr_w_rest offset d s :
  set_io_addr 0 (io_rom_addr_w offset d s) = set_io_addr 0 s.
Proof. rewrite io_rom_addr_w_frame. reflexivity. Qed.

Ltac io_addr_bits :=
  let i := fresh "i" in
  let Hi := fresh "Hi" in
  apply Z.bits_inj'; intros i Hi;
  repeat first
    [ rewrite io_rom_addr_w_0
        by (first [assumption | apply io_rom_addr_w_range; assumption])
    | rewrite io_rom_addr_w_1
        by (first [assumption | apply io_rom_addr_w_range; assumption])
    | rewrite io_rom_addr_w_2
        by (first [assumption | apply io_rom_addr_w_range; assumption]) ];
  split_comparisons; close_bits.

(** X13.  On an 18-bit address and with byte data, fragment writes at two
    different offsets give the same state in either order, and of two
    writes at one offset the later one alone counts. *)
Theorem io_rom_addr_writes_commute :
  forall s d d',
    0 <= m_io_addr s < 2 ^ 18 -> 0 <= d < 256 -> 0 <= d' < 256 ->
    io_rom_addr_w 0 d (io_rom_addr_w 1 d' s)
      = io_rom_addr_w 1 d' (io_rom_addr_w 0 d s) /\
    io_rom_addr_w 0 d (io_rom_addr_w 2 d' s)
      = io_rom_addr_w 2 d' (io_rom_addr_w 0 d s) /\
    io_rom_addr_w 1 d (io_rom_addr_w 2 d' s)
      = io_rom_addr_w 2 d' (io_rom_addr_w 1 d s) /\
    io_rom_addr_w 0 d (io_rom_addr_w 0 d' s) = io_rom_addr_w 0 d s /\
    io_rom_addr_w 1 d (io_rom_addr_w 1 d' s) = io_rom_addr_w 1 d s /\
    io_rom_addr_w 2 d (io_rom_addr_w 2 d' s) = io_rom_addr_w 2 d s.
Proof.
  intros s d d' Ha Hd Hd'.
  repeat match goal with |- _ /\ _ => split end;
    (apply io_addr_ext; [now rewrite !io_rom_addr_w_rest | io_addr_bits]).
Qed.

(** ** RTC lines *)

Lemma BIT_div x n : 0 <= n -> BIT x n = (x / 2 ^ n) mod 2.
Proof.
  intros Hn. unfold BIT. rewrite Z.shiftr_div_pow2 by assumption.
  change 1 with (Z.ones 1). now rewrite Z.land_ones by lia.
Qed.

(** X15.  The RTC writes pass one bit to each line, in the order C0, C1,
    C2, DATA IN for port 0x10 and OE, STB, CLK for port 0x40; the bits are
    bits 0..3, respectively 0..2, of the byte written, and the higher bits
    of the byte reach no line. *)
Theorem rtc_bit_interface :
  forall data,
    (exists b0 b1 b2 b3,
       rtc_cmd_w data = [c0_w b0; c1_w b1; c2_w b2; data_in_w b3] /\
       0 <= b0 <= 1 /\ 0 <= b1 <= 1 /\ 0 <= b2 <= 1 /\ 0 <= b3 <= 1 /\
       b0 + 2 * b1 + 4 * b2 + 8 * b3 = Z.land data 0x0f) /\
    (exists b0 b1 b2,
       rtc_ctrl_w data = [oe_w b0; stb_w b1; clk_w b2] /\
       0 <= b0 <= 1 /\ 0 <= b1 <= 1 /\ 0 <= b2 <= 1 /\
       b0 + 2 * b1 + 4 * b2 = Z.land data 0x07).
Proof.
  intros data. split.
  - exists (BIT data 0), (BIT data 1), (BIT data 2), (BIT data 3).
    split; [reflexivity|]. rewrite !BIT_div by lia.
    change 0x0f with (Z.ones 4). rewrite Z.land_ones by lia.
    change (2 ^ 0) with 1. change (2 ^ 1) with 2. change (2 ^ 2) with 4.
    change (2 ^ 3) with 8. change (2 ^ 4) with 16.
    Z.div_mod_to_equations. lia.
  - exists (BIT data 0), (BIT data 1), (BIT data 2).
    split; [reflexivity|]. rewrite !BIT_div by lia.
    change 0x07 with (Z.ones 3). rewrite Z.land_ones by lia.
    change (2 ^ 0) with 1. change (2 ^ 1) with 2. change (2 ^ 2) with 4.
    change (2 ^ 3) with 8.
    Z.div_mod_to_equations. lia.
Qed.

(** X16.  The RTC status byte is 2 * DATA OUT + 4 * TP for line levels 0
    or 1: DATA OUT is bit 1, TP is bit 2, and bit 0 is never set. *)
Theorem rtc_r_bits :
  forall data_out tp,
    0 <= data_out <= 1 -> 0 <= tp <= 1 ->
    rtc_r data_out tp = 2 * data_out + 4 * tp /\
    Z.testbit (rtc_r data_out tp) 0 = false.
Proof.
  intros data_out tp Hd Ht.
  assert (Ed : data_out = 0 \/ data_out = 1) by lia.
  assert (Et : tp = 0 \/ tp = 1) by lia.
  destruct Ed as [-> | ->], Et as [-> | ->]; split; reflexivity.
Qed.

(** ** Power on *)

(** X17.  At power on the CPU reads the internal ROM from its offset 0 in
    0x0000..0x7FFF, the first 16K of RAM in 0x8000..0xBFFF, and RAM at the
    same offsets in 0xC000..0xFFFF. *)
Theorem power_on_memory_map :
  forall cfg a,
    0x0000 <= a <= 0xffff ->
    program_read cfg (power_on cfg) a =
    if a <=? 0x7fff then rom cfg a
    else if a <=? 0xbfff then ram_init cfg (a - 0x8000)
    else ram_init cfg a.
Proof.
  intros cfg a Ha.
  assert (Hp : program (power_on cfg) =
               [ install_readwrite_bank 0xc000 0xe7ff bank4;
                 install_readwrite_bank 0x8000 0xbfff bank3;
                 unmap_write 0x0000 0x7fff;
                 install_read_bank 0x0000 0x7fff bank1;
                 install_readwrite_bank 0xe800 0xffff bank5;
                 install_readwrite_bank 0xc000 0xe7ff bank4;
                 install_readwrite_bank 0x8000 0xbfff bank3;
                 install_readwrite_bank 0x0000 0x7fff bank1 ])
    by (vm_compute; reflexivity).
  assert (He : forall b, entry (power_on cfg) b = 0)
    by (intros b; destruct b; vm_compute; reflexivity).
  assert (Hr : ram (power_on cfg) = ram_init cfg) by (vm_compute; reflexivity).
  unfold program_read, resolve. rewrite Hp.
  cbn [read_handler]. unfold within.
  split_comparisons; cbn [andb]; try lia;
    rewrite He; cbn [bank_base Z.leb Z.ltb Z.eqb Z.compare andb region_read];
    rewrite ?Hr; f_equal; lia.
Qed.

(** X18.  A write to the MMR changes the memory map only: the contents of
    RAM and of the CRT video RAM, the keyboard state, the I/O ROM address
    and the CPU line are as before. *)
Theorem mmr_write_changes_banking_only :
  forall cfg d s,
    ram (mmr_w cfg d s) = ram s /\
    crt_ram (mmr_w cfg d s) = crt_ram s /\
    m_key_strobe (mmr_w cfg d s) = m_key_strobe s /\
    m_key_latch (mmr_w cfg d s) = m_key_latch s /\
    m_key_irq_enable (mmr_w cfg d s) = m_key_irq_enable s /\
    m_io_addr (mmr_w cfg d s) = m_io_addr s /\
    maincpu (mmr_w cfg d s) = maincpu s.
Proof.
  intros cfg d s.
  destruct (mmr_w_frame cfg d s) as (H1 & H2 & H3 & H4 & _ & H6 & H7 & H8 & _).
  auto 10.
Qed.

(** X14.  In every reachable state the I/O ROM address is below 0x40000:
    the address handed to the cartridge by a read of port 0xB3 always fits
    in 18 bits. *)
Theorem io_rom_addr_fits_18_bits :
  forall cfg s, reachable cfg s -> 0 <= m_io_addr s < 2 ^ 18.
Proof. intros cfg s Hs. exact (reachable_io_addr_range cfg s Hs). Qed.

(** ** The further properties on examples *)

Lemma reachable_run cfg es : reachable cfg (run cfg es (power_on cfg)).
Proof. exists es. reflexivity. Qed.

Lemma low_window_internal_rom_witness :
  program_read pc8500_64k
    (bankswitch pc8500_64k 0x01 (power_on pc8500_64k)) 0x1234
  = rom pc8500_64k (Z.land 0x01 0x03 * 0x8000 + 0x1234) /\
  program_write 0x1234 0xaa (bankswitch pc8500_64k 0x01 (power_on pc8500_64k))
  = bankswitch pc8500_64k 0x01 (power_on pc8500_64k).
Proof.
  apply low_window_internal_rom;
    [reflexivity | vm_compute; reflexivity | lia].
Defined.

Lemma low_window_rom_cartridge_witness :
  program_read pc8500_64k
    (bankswitch pc8500_64k 0x03 (power_on pc8500_64k)) 0x1234 = 0xff.
Proof.
  pose proof (low_window_rom_cartridge pc8500_64k (power_on pc8500_64k)
                0x03 0x1234 0xaa) as H.
  destruct H as (H & _); [reflexivity | reflexivity | lia |].
  rewrite H. vm_compute. reflexivity.
Defined.

Lemma low_window_ram_witness :
  program_read pc8500_64k
    (program_write 0x1234 0xaa
       (bankswitch pc8500_64k 0x08 (power_on pc8500_64k))) 0x1234 = 0xaa.
Proof.
  pose proof (low_window_ram pc8500_64k (power_on pc8500_64k)
                0x08 0x1234 0xaa) as H.
  cbv zeta in H. destruct H as (_ & _ & H); [right; reflexivity | lia |].
  exact H.
Defined.

Lemma mid_window_ram_cell_witness :
  program_read pc8500_64k
    (program_write 0x9000 0xaa
       (bankswitch pc8500_64k 0x20 (power_on pc8500_64k))) 0x9000 = 0xaa.
Proof.
  pose proof (mid_window_ram_cell pc8500_64k (power_on pc8500_64k)
                0x20 0x9000 0xaa) as H.
  cbv zeta in H.
  destruct H as (_ & _ & H); [left; vm_compute; reflexivity | lia |].
  exact H.
Defined.

Lemma high_window_ram_or_video_witness :
  program_read pc8500_64k
    (bankswitch pc8500_64k 0x40 (power_on pc8500_64k)) 0xe000 = 0xff.
Proof.
  pose proof (high_window_ram_or_video pc8500_64k (power_on pc8500_64k)
                0x40 0xe000 0xaa) as H.
  cbv zeta in H. specialize (H ltac:(lia)).
  change (BIT 0x40 6 =? 0) with false in H.
  change (0xe000 <=? 0xdfff) with false in H.
  cbv iota in H. exact (proj1 H).
Defined.

Lemma top_window_fixed_ram_witness :
  program_read pc8500_64k (program_write 0xf000 0xaa ram_then_invalid) 0xf000
  = 0xaa.
Proof.
  destruct (top_window_fixed_ram pc8500_64k ram_then_invalid 0xf000 0xaa)
    as (_ & _ & H).
  - apply reachable_run.
  - lia.
  - exact H.
Defined.

Lemma mmr_w_maps_as_bankswitch_witness :
  mapping_at (mmr_w pc8500_64k 0x00 (power_on pc8500_64k)) 0x0100
  = mapping_at (bankswitch pc8500_64k 0x00 (power_on pc8500_64k)) 0x0100.
Proof.
  apply mmr_w_maps_as_bankswitch. apply (reachable_run pc8500_64k []).
Defined.

Lemma mapping_function_of_mmr_witness :
  mapping_at (power_on pc8500_64k) 0x1000
  = mapping_at
      (run pc8500_64k [ev_io_write 0x30 0x04; ev_io_write 0x30 0x00]
         (power_on pc8500_64k)) 0x1000.
Proof.
  apply (mapping_function_of_mmr pc8500_64k).
  - apply (reachable_run pc8500_64k []).
  - apply reachable_run.
  - vm_compute. reflexivity.
  - left. split; [lia | vm_compute; discriminate].
Defined.

Lemma port70_write_rearms_irq_witness :
  port70_r
    (keyboard_tick two_keys
       (io_write pc8500_64k 0x70 0x00
          (set_key_strobe 1 (set_key_irq_enable true (power_on pc8500_64k)))))
  = 0x11.
Proof.
  pose proof (port70_write_rearms_irq pc8500_64k
                (set_key_strobe 1 (set_key_irq_enable true (power_on pc8500_64k)))
                0x00 two_keys) as H.
  cbv zeta in H. destruct H as (_ & _ & _ & _ & H); [reflexivity | reflexivity |].
  exact H.
Defined.

Lemma scan_enabled_only_by_sequence_witness :
  m_key_irq_enable
    (step pc8500_64k (ev_io_write 0x71 0x18)
       (port71_w 0x10 (power_on pc8500_64k))) = true.
Proof.
  apply (proj2 (scan_enabled_only_by_sequence pc8500_64k
                  (ev_io_write 0x71 0x18)
                  (port71_w 0x10 (power_on pc8500_64k)) eq_refl)).
  exists 0x71, 0x18. repeat split.
Defined.

Lemma strobe_and_enable_are_sticky_witness :
  m_key_strobe (step pc8500_64k ev_reset key_pending) = 1.
Proof.
  apply (proj1 (strobe_and_enable_are_sticky pc8500_64k ev_reset key_pending)).
  - vm_compute. reflexivity.
  - intros port data H. discriminate H.
Defined.

Lemma io_rom_addr_after_three_writes_witness :
  m_io_addr
    (io_rom_addr_w 2 0x45
       (io_rom_addr_w 1 0x23 (io_rom_addr_w 0 0x01 (power_on pc8500_64k))))
  = Z.lor (Z.shiftl (Z.land 0x01 0x03) 16) (Z.lor (Z.shiftl 0x23 8) 0x45).
Proof. apply io_rom_addr_after_three_writes; lia. Defined.

Lemma io_rom_addr_writes_commute_witness :
  io_rom_addr_w 0 0x02 (io_rom_addr_w 1 0x34 (power_on pc8500_64k))
  = io_rom_addr_w 1 0x34 (io_rom_addr_w 0 0x02 (power_on pc8500_64k)).
Proof.
  destruct (io_rom_addr_writes_commute (power_on pc8500_64k) 0x02 0x34)
    as (H & _).
  - vm_compute. split; [discriminate | reflexivity].
  - lia.
  - lia.
  - exact H.
Defined.

Lemma io_rom_addr_fits_18_bits_witness :
  0 <= m_io_addr
         (run pc8500_64k
            [ev_io_write 0xb0 0xff; ev_io_write 0xb1 0xff; ev_io_write 0xb2 0xff]
            (power_on pc8500_64k)) < 2 ^ 18.
Proof. apply (io_rom_addr_fits_18_bits pc8500_64k). apply reachable_run. Defined.

Lemma rtc_r_bits_witness :
  rtc_r 1 0 = 2 * 1 + 4 * 0 /\ Z.testbit (rtc_r 1 0) 0 = false.
Proof. apply rtc_r_bits; lia. Defined.

Lemma power_on_memory_map_witness :
  program_read pc8500_64k (power_on pc8500_64k) 0x8000
  = ram_init pc8500_64k (0x8000 - 0x8000).
Proof.
  pose proof (power_on_memory_map pc8500_64k 0x8000 ltac:(lia)) as H.
  change (0x8000 <=? 0x7fff) with false in H.
  change (0x8000 <=? 0xbfff) with true in H.
  cbv iota in H. exact H.
Defined.
